(** * RedditReady: the Reddit research agent, embedded and verified

    A shallow embedding of [redditresearchagent.py] (the LangChain/OpenAI
    variant) and [redditresearchagent_gemini.py] (the Gemini variant).

    Python values, exceptions and the few built-ins the program relies on
    ([str.split], [str.join], [int * float], [int > float], calls with
    positional arguments) come first; the classes of the program follow in
    source order; the theorems are at the end. *)

From Stdlib Require Import ZArith QArith Lia Bool List Ascii String.
From Stdlib Require Import FunctionalExtensionality PrimFloat FloatOps SpecFloat Uint63.
From stdpp Require Import base decidable option list strings gmap pretty.

Local Open Scope string_scope.
Local Open Scope list_scope.
Local Open Scope Z_scope.

(** ** Python exceptions and results *)

Inductive exn :=
| TypeError (msg : string)      (* wrong number of arguments, unhashable key *)
| KeyError (key : string)        (* a missing string key *)
| KeyErrorOther (repr : string) (* a missing key that is not a string *)
| OSError (msg : string)        (* raised by [open] and by writing a file *)
| IndexError
| OverflowError                 (* int too large to convert to float *)
| ExternalError (msg : string). (* raised by praw, the LLM client, the network *)

Inductive result (A : Type) :=
| Ok (a : A)
| Raise (e : exn).
Arguments Ok {A} a.
Arguments Raise {A} e.

Definition is_ok {A} (r : result A) : bool :=
  match r with Ok _ => true | Raise _ => false end.

(** ** IEEE-754 binary64, as far as [post_score * 0.05] needs it

    A finite double is a dyadic number [mant * 2^expo].  Products and
    conversions round to 53 significant bits, to nearest, ties to even.
    Underflow cannot occur for a product of an integer with 0.05, and the
    only overflow that can is the conversion of a huge [int], which Python
    reports as [OverflowError]. *)
Module Float64.

Record t := mk { mant : Z; expo : Z }.

Definition prec : Z := 53.

(** [n * 2^e], [0 <= n], rounded to [prec] bits. *)
Definition round_nonneg (n e : Z) : t :=
  let sh := Z.log2 n + 1 - prec in
  if sh <=? 0 then mk n e
  else
    let q := n / 2 ^ sh in
    let r := n mod 2 ^ sh in
    let half := 2 ^ (sh - 1) in
    let q' := if r <? half then q
              else if half <? r then q + 1
              else if Z.even q then q else q + 1 in
    mk q' (e + sh).

Definition round (n e : Z) : t :=
  if n <? 0 then
    let r := round_nonneg (- n) e in mk (- mant r) (expo r)
  else round_nonneg n e.

Definition mul (x y : t) : t :=
  round (mant x * mant y) (expo x + expo y).

(** [float(n)] for a Python [int]. *)
Definition of_int (n : Z) : result t :=
  let r := round n 0 in
  if 2 ^ 1024 <=? Z.abs (mant r) * 2 ^ expo r then Raise OverflowError
  else Ok r.

(** [n > x] for a Python [int] [n] and a float [x]: Python compares the
    two exactly, without converting [n]. *)
Definition int_gt (n : Z) (x : t) : bool :=
  if 0 <=? expo x then mant x * 2 ^ expo x <? n
  else mant x <? n * 2 ^ (- expo x).

(** The double nearest to the literal [0.05], 0x1.999999999999ap-5. *)
Definition lit_0_05 : t := mk 3602879701896397 (-56).

End Float64.

(** ** Python strings: [str.split(sep)] with a one-character separator,
    [sep.join(parts)], indexing and slicing of the resulting list *)

Definition newline : ascii := Ascii.ascii_of_nat 10.

Fixpoint str_split (sep : ascii) (s : string) : list string :=
  match s with
  | EmptyString => [EmptyString]
  | String c rest =>
      if Ascii.eqb c sep then EmptyString :: str_split sep rest
      else match str_split sep rest with
           | piece :: pieces => String c piece :: pieces
           | [] => [String c EmptyString]
           end
  end.

Fixpoint str_join (sep : string) (parts : list string) : string :=
  match parts with
  | [] => EmptyString
  | [p] => p
  | p :: ps => p +:+ sep +:+ str_join sep ps
  end.

(** [l[0]] *)
Definition index0 {A} (l : list A) : result A :=
  match l with
  | [] => Raise IndexError
  | x :: _ => Ok x
  end.

(** [l[1:]] *)
Definition slice_from1 {A} (l : list A) : list A := drop 1 l.

(** ** [Config] *)
Module Config.
Definition monitoring_duration : Z := 21600.
Definition check_interval : Z := 3600.
Definition max_replies_per_thread : nat := 4.
Definition upvote_ratio_threshold : Float64.t := Float64.lit_0_05.
Definition rate_limit_delay : Z := 120.
Definition min_upvotes : Z := 5.
End Config.

(** [ResponseAnalysisAgent.should_reply]: [and] evaluates its right operand
    only when the left one holds. *)
Definition should_reply (score post_score : Z) : result bool :=
  if Config.min_upvotes <? score then
    match Float64.of_int post_score with
    | Ok x => Ok (Float64.int_gt score (Float64.mul x Config.upvote_ratio_threshold))
    | Raise e => Raise e
    end
  else Ok false.

(** ** Values stored in the research record

    [ResearchData.post] and the entries of [interactions['replies']] are
    plain Python dicts; [pyval] is the fragment of Python values they hold. *)
#[warnings="-register-all"]
Inductive pyval :=
| PNone
| PBool (b : bool)
| PInt (z : Z)
| PStr (s : string)
| PList (elements : list pyval)
| PDict (items : list (string * pyval)).

(** [d.get(key)] on the items of a dict literal. *)
Fixpoint dict_get (key : string) (items : list (string * pyval)) : option pyval :=
  match items with
  | [] => None
  | (k, v) :: rest => if String.eqb k key then Some v else dict_get key rest
  end.

(** [interactions]: the dict built by [initialize_research], with its two
    fixed keys ['replies'] and ['metrics']. *)
Record Interactions := {
  replies : list pyval;
  metrics : pyval
}.

Module ResearchData.
Record t := {
  research_id : string;
  original_prompt : string;
  subreddit : string;
  style_template : string;
  post : pyval;
  interactions : Interactions
}.
Definition with_post (post_data : pyval) (r : t) : t :=
  {| research_id := research_id r; original_prompt := original_prompt r;
     subreddit := subreddit r; style_template := style_template r;
     post := post_data; interactions := interactions r |}.
Definition with_replies (l : list pyval) (r : t) : t :=
  {| research_id := research_id r; original_prompt := original_prompt r;
     subreddit := subreddit r; style_template := style_template r;
     post := post r;
     interactions := {| replies := l; metrics := metrics (interactions r) |} |}.
End ResearchData.

(** ** The outside world: Reddit (through praw), the LLM provider, the
    clock, and the library functions the program treats as black boxes *)

Record HotPost := {
  hot_title : string;
  hot_selftext : option string;   (* [None]: the attribute is absent *)
  hot_score : Z
}.

Record Comment := {
  comment_id : string;
  comment_body : string;
  comment_score : Z;
  comment_created_utc : Z
}.

(** What the submission object shows after [post.refresh()]. *)
Record PostView := {
  has_removed : bool;                   (* [hasattr(post, 'removed')] *)
  post_score : Z;                       (* [post.score] *)
  post_comments : result (list Comment) (* what [replace_more] then
                                           [comments.list()] will deliver *)
}.

(** What writing a text to an open file ends in: the text is in the file,
    or the write fails and leaves [remains] in the file. *)
Inductive WriteOutcome :=
| Written
| WriteFailed (e : exn) (remains : string).

(** Every answer depends on the time at which the call is issued. *)
Record Environment := {
  subreddit_title : Z -> string -> result unit;
  subreddit_hot : Z -> string -> result (list HotPost);
  subreddit_submit : Z -> string -> string -> string -> result string;
  post_refresh : Z -> string -> result PostView;
  comment_reply : Z -> string -> string -> result string;
  llm : Z -> string -> result string;
  latency : Z -> N;                     (* duration of the call issued at that time *)
  json_dumps : list HotPost -> string;
  to_json : ResearchData.t -> result string; (* [json.dumps(asdict(self), indent=2)] *)
  file_open : Z -> string -> result unit;    (* [open(path, 'w')] *)
  file_write : Z -> string -> string -> WriteOutcome; (* path, text *)
  isoformat : Z -> string;
  textblob_sentiment : string -> pyval
}.

(** Outgoing calls to the platform, as recorded in the trace. *)
Inductive PlatformCall :=
| CallSubreddit (name : string)
| CallHot (name : string)
| CallSubmit (title selftext : string)
| CallRefresh (post_id : string)
| CallReplaceMore (post_id : string) (* [post.comments.replace_more(limit=None)] *)
| CallReply (comment : string) (text : string).

(** The mutable state of one process: the clock, the two agent objects
    that carry state, the local set [generated_replies] of [run_research],
    and what the process has done to the outside. *)
Record World := {
  now : Z;                               (* [time.time()] *)
  last_api_call : Z;                     (* [RedditAPI.last_api_call] *)
  data : gmap string ResearchData.t;       (* [DataCollectionAgent.data] *)
  generated_replies : gset string;
  calls : list (Z * PlatformCall);       (* issue time, call; oldest first *)
  files : gmap string string;            (* path, contents *)
  stdout : list string
}.

Definition set_now (t : Z) (w : World) : World :=
  {| now := t; last_api_call := last_api_call w; data := data w;
     generated_replies := generated_replies w; calls := calls w;
     files := files w; stdout := stdout w |}.
Definition set_last_api_call (t : Z) (w : World) : World :=
  {| now := now w; last_api_call := t; data := data w;
     generated_replies := generated_replies w; calls := calls w;
     files := files w; stdout := stdout w |}.
Definition set_data (d : gmap string ResearchData.t) (w : World) : World :=
  {| now := now w; last_api_call := last_api_call w; data := d;
     generated_replies := generated_replies w; calls := calls w;
     files := files w; stdout := stdout w |}.
Definition set_generated_replies (g : gset string) (w : World) : World :=
  {| now := now w; last_api_call := last_api_call w; data := data w;
     generated_replies := g; calls := calls w;
     files := files w; stdout := stdout w |}.
Definition set_calls (c : list (Z * PlatformCall)) (w : World) : World :=
  {| now := now w; last_api_call := last_api_call w; data := data w;
     generated_replies := generated_replies w; calls := c;
     files := files w; stdout := stdout w |}.
Definition set_files (f : gmap string string) (w : World) : World :=
  {| now := now w; last_api_call := last_api_call w; data := data w;
     generated_replies := generated_replies w; calls := calls w;
     files := f; stdout := stdout w |}.
Definition set_stdout (o : list string) (w : World) : World :=
  {| now := now w; last_api_call := last_api_call w; data := data w;
     generated_replies := generated_replies w; calls := calls w;
     files := files w; stdout := o |}.

(** [RedditAPI.__init__] and [DataCollectionAgent.__init__] at time [t0]. *)
Definition initial_world (t0 : Z) : World :=
  {| now := t0; last_api_call := 0; data := ∅; generated_replies := ∅;
     calls := []; files := ∅; stdout := [] |}.

(** ** The monad of the program: state, and exceptions that keep the state *)

Definition M (A : Type) : Type := World -> result A * World.

Definition ret {A} (a : A) : M A := fun w => (Ok a, w).
Definition raise {A} (e : exn) : M A := fun w => (Raise e, w).
Definition bind {A B} (m : M A) (f : A -> M B) : M B :=
  fun w => match m w with
           | (Ok a, w') => f a w'
           | (Raise e, w') => (Raise e, w')
           end.
(** [try: m except Exception as e: h e] *)
Definition try_except {A} (m : M A) (h : exn -> M A) : M A :=
  fun w => match m w with
           | (Ok a, w') => (Ok a, w')
           | (Raise e, w') => h e w'
           end.
Definition lift {A} (r : result A) : M A := fun w => (r, w).

#[global] Instance M_ret : MRet M := @ret.
#[global] Instance M_bind : MBind M := fun A B f m => bind m f.

(** [repr(s)] for a string whose characters are the code points below 256:
    the quote is the apostrophe unless the string holds an apostrophe and no
    double quote; the backslash, the quote, line feed, carriage return and
    tab are escaped, and the characters that are not printable are written
    in hexadecimal. *)
Definition apostrophe : ascii := Ascii.ascii_of_nat 39.
Definition double_quote : ascii := Ascii.ascii_of_nat 34.
Definition backslash : ascii := Ascii.ascii_of_nat 92.

Fixpoint str_contains (c : ascii) (s : string) : bool :=
  match s with
  | EmptyString => false
  | String c' rest => Ascii.eqb c' c || str_contains c rest
  end.

Definition hex_digit (n : N) : ascii :=
  Ascii.ascii_of_N (if (n <? 10)%N then 48 + n else 87 + n)%N.

Definition escape_char (quote c : ascii) : string :=
  let n := Ascii.N_of_ascii c in
  if Ascii.eqb c backslash then String backslash (String backslash EmptyString)
  else if Ascii.eqb c quote then String backslash (String quote EmptyString)
  else if (n =? 10)%N then String backslash "n"
  else if (n =? 13)%N then String backslash "r"
  else if (n =? 9)%N then String backslash "t"
  else if (n <? 32)%N || ((127 <=? n)%N && (n <=? 160)%N) || (n =? 173)%N
  then String backslash
         (String "x" (String (hex_digit (n / 16)) (String (hex_digit (n mod 16)) EmptyString)))
  else String c EmptyString.

Fixpoint escape (quote : ascii) (s : string) : string :=
  match s with
  | EmptyString => EmptyString
  | String c rest => escape_char quote c +:+ escape quote rest
  end.

Definition str_repr (s : string) : string :=
  let quote := if str_contains apostrophe s && negb (str_contains double_quote s)
               then double_quote else apostrophe in
  String quote (escape quote s) +:+ String quote EmptyString.

(** [str(e)]; the text of a [KeyError] is the [repr] of the key. *)
Definition exn_str (e : exn) : string :=
  match e with
  | TypeError msg => msg
  | KeyError key => str_repr key
  | KeyErrorOther repr => repr
  | OSError msg => msg
  | IndexError => "list index out of range"
  | OverflowError => "int too large to convert to float"
  | ExternalError msg => msg
  end.

Definition print (line : string) : M unit :=
  fun w => (Ok tt, set_stdout (stdout w ++ [line]) w).

(** [time.sleep(d)] and [await asyncio.sleep(d)]: nothing else runs in
    the process, so both only let [d] seconds pass. *)
Definition sleep (d : Z) : M unit :=
  fun w => (Ok tt, set_now (now w + Z.max 0 d) w).

Definition get_time : M Z := fun w => (Ok (now w), w).

(** Reading and updating the state. *)
Definition get {A} (field : World -> A) : M A := fun w => (Ok (field w), w).
Definition modify (f : World -> World) : M unit := fun w => (Ok tt, f w).

Section Program.

Context (env : Environment).

(** A call to the platform: logged with its issue time, answered by the
    environment, and over after the call's latency. *)
Definition platform {A} (c : PlatformCall) (answer : Z -> result A) : M A :=
  fun w =>
    let t := now w in
    (answer t, set_now (t + Z.of_N (latency env t)) (set_calls (calls w ++ [(t, c)]) w)).

(** A call to the LLM provider. *)
Definition provider (prompt : string) : M string :=
  fun w =>
    let t := now w in
    (llm env t prompt, set_now (t + Z.of_N (latency env t)) w).

(** *** [RedditAPI] *)

Definition _respect_rate_limit : M unit :=
  current_time ← get_time;
  last ← get last_api_call;
  let time_since_last_call := current_time - last in
  (if time_since_last_call <? Config.rate_limit_delay
   then sleep (Config.rate_limit_delay - time_since_last_call)
   else ret tt);;
  t ← get_time;
  modify (set_last_api_call t).

(** The subreddit handle is the name it was resolved from. *)
Definition get_subreddit (subreddit_name : string) : M (option string) :=
  _respect_rate_limit;;
  try_except
    (platform (CallSubreddit subreddit_name)
              (fun t => subreddit_title env t subreddit_name);;
     ret (Some subreddit_name))
    (fun e =>
       print ("Error accessing subreddit: " +:+ exn_str e);;
       ret None).

(** *** [ResponseAnalysisAgent.analyze_sentiment] *)

Definition analyze_sentiment (text : string) : pyval :=
  textblob_sentiment env text.

(** *** [DataCollectionAgent]

    A method receives the positional arguments of the call and binds
    them to its parameters; a call with the wrong number of arguments
    raises [TypeError] before the body runs.  Parameters annotated [str]
    receive strings at every call site that supplies them. *)

Definition initialize_research (args : list pyval) : M unit :=
  match args with
  | [PStr research_id; PStr prompt; PStr subreddit; PStr style_template] =>
      modify (fun w =>
        set_data (<[research_id :=
                    {| ResearchData.research_id := research_id;
                       ResearchData.original_prompt := prompt;
                       ResearchData.subreddit := subreddit;
                       ResearchData.style_template := style_template;
                       ResearchData.post := PDict [];
                       ResearchData.interactions :=
                         {| replies := [];
                            metrics := PDict [("total_engagement", PInt 0);
                                              ("sentiment_overview", PDict []);
                                              ("key_insights", PList [])] |} |}]>
                  (data w)) w)
  | _ => raise (TypeError "DataCollectionAgent.initialize_research() takes 5 positional arguments")
  end.

(** [self.data[research_id]] *)
Definition data_lookup (research_id : pyval) : M (string * ResearchData.t) :=
  match research_id with
  | PStr key =>
      d ← get data;
      match d !! key with
      | Some record => ret (key, record)
      | None => raise (KeyError key)
      end
  | PDict _ => raise (TypeError "unhashable type: 'dict'")
  | PList _ => raise (TypeError "unhashable type: 'list'")
  | PNone => raise (KeyErrorOther "None")
  | PBool true => raise (KeyErrorOther "True")
  | PBool false => raise (KeyErrorOther "False")
  | PInt z => raise (KeyErrorOther (pretty z))
  end.

Definition update_post (args : list pyval) : M unit :=
  match args with
  | [research_id; post_data] =>
      '(key, r) ← data_lookup research_id;
      modify (fun w =>
        set_data (<[key := ResearchData.with_post post_data r]> (data w)) w)
  | [_] => raise (TypeError "DataCollectionAgent.update_post() missing 1 required positional argument: 'post_data'")
  | _ => raise (TypeError "DataCollectionAgent.update_post() takes 3 positional arguments")
  end.

Definition add_reply (args : list pyval) : M unit :=
  match args with
  | [research_id; reply_data] =>
      '(key, r) ← data_lookup research_id;
      modify (fun w =>
        set_data (<[key := ResearchData.with_replies
                             (replies (ResearchData.interactions r) ++ [reply_data]) r]>
                  (data w)) w)
  | [_] => raise (TypeError "DataCollectionAgent.add_reply() missing 1 required positional argument: 'reply_data'")
  | _ => raise (TypeError "DataCollectionAgent.add_reply() takes 3 positional arguments")
  end.

(** [open(filepath, 'w')]: raises when the path cannot be opened for
    writing, and creates or empties the file otherwise. *)
Definition open_for_writing (filepath : string) : M unit :=
  t ← get_time;
  lift (file_open env t filepath);;
  modify (fun w => set_files (<[filepath := ""]> (files w)) w).

(** [f.write(text)], flushed when the [with] block is left. *)
Definition write_file (filepath text : string) : M unit :=
  t ← get_time;
  match file_write env t filepath text with
  | Written => modify (fun w => set_files (<[filepath := text]> (files w)) w)
  | WriteFailed e remains =>
      modify (fun w => set_files (<[filepath := remains]> (files w)) w);;
      raise e
  end.

(** The file is opened before the record is looked up and serialised. *)
Definition save_research (args : list pyval) : M unit :=
  match args with
  | [research_id; PStr filepath] =>
      open_for_writing filepath;;
      '(_, r) ← data_lookup research_id;
      text ← lift (to_json env r);
      write_file filepath text
  | _ => raise (TypeError "DataCollectionAgent.save_research() takes 3 positional arguments")
  end.

End Program.

(** ** The LLM-facing agents

    The three prompts are the same text in both files, at a different
    indentation. *)

Definition nl : string := String newline EmptyString.

(** A triple-quoted template whose lines are indented by [indent]. *)
Definition block (indent : string) (lines : list string) : string :=
  nl +:+ String.concat "" (map (fun line => indent +:+ line +:+ nl) lines) +:+ indent.

Definition style_prompt (indent posts : string) : string :=
  block indent
    [ "Analyze these recent posts and identify:";
      "1. Common writing styles";
      "2. Typical post structure";
      "3. Popular phrases and terminology";
      "4. Engagement patterns";
      "";
      "Posts:";
      posts;
      "";
      "Provide a structured template for creating posts in this subreddit." ].

Definition post_prompt (indent style_guide research_prompt : string) : string :=
  block indent
    [ "Create a Reddit post following this style guide:";
      style_guide;
      "";
      "Research Topic:";
      research_prompt;
      "";
      "Generate a post that will encourage meaningful discussion and responses." ].

Definition reply_prompt (indent context : string) : string :=
  block indent
    [ "Based on this conversation context:";
      context;
      "";
      "Generate a thoughtful and engaging reply that adds value to the discussion." ].

(** The posts gathered by [analyze_subreddit]: [selftext] defaults to the
    empty string. *)
Definition collect_posts (hot : list HotPost) : list HotPost :=
  map (fun p => {| hot_title := hot_title p;
                   hot_selftext := Some (default "" (hot_selftext p));
                   hot_score := hot_score p |}) hot.

(** What [RedditResearchAgent.__init__] wires together and [run_research]
    calls through [self]. *)
Record RedditResearchAgent := {
  analyze_subreddit : string -> M string;
  generate_post : string -> string -> M string;
  generate_reply : string -> M string
}.

(** *** [redditresearchagent.py]: LangChain chains over OpenAI.
    [LLMChain.run] fills the template and returns the completion; an error
    of the provider is an exception of the call. *)
Module OpenAI.
Section WithEnv.
Context (env : Environment).

Definition indent : string := "            ".

Definition analyze_subreddit (subreddit : string) : M string :=
  hot ← platform env (CallHot subreddit) (fun t => subreddit_hot env t subreddit);
  let posts := collect_posts hot in
  provider env (style_prompt indent (json_dumps env posts)).

Definition generate_post (style_guide research_prompt : string) : M string :=
  provider env (post_prompt indent style_guide research_prompt).

Definition generate_reply (context : string) : M string :=
  provider env (reply_prompt indent context).

Definition agent : RedditResearchAgent :=
  Build_RedditResearchAgent analyze_subreddit generate_post generate_reply.
End WithEnv.
End OpenAI.

(** *** [redditresearchagent_gemini.py]: [GeminiWrapper.generate_text]
    catches every error of the provider, logs it and returns [""]. *)
Module Gemini.
Section WithEnv.
Context (env : Environment).

Definition indent : string := "        ".

Definition generate_text (prompt : string) : M string :=
  try_except
    (provider env prompt)
    (fun e =>
       print ("Error generating text with Gemini: " +:+ exn_str e);;
       ret "").

Definition analyze_subreddit (subreddit : string) : M string :=
  hot ← platform env (CallHot subreddit) (fun t => subreddit_hot env t subreddit);
  let posts := collect_posts hot in
  generate_text (style_prompt indent (json_dumps env posts)).

Definition generate_post (style_guide research_prompt : string) : M string :=
  generate_text (post_prompt indent style_guide research_prompt).

Definition generate_reply (context : string) : M string :=
  generate_text (reply_prompt indent context).

Definition agent : RedditResearchAgent :=
  Build_RedditResearchAgent analyze_subreddit generate_post generate_reply.
End WithEnv.
End Gemini.

(** ** [RedditResearchAgent.run_research]

    The body is the same in both files (the Gemini file only adds [await]
    in front of the three calls to the LLM-facing agents). *)
Section Orchestrator.

Context (env : Environment) (self : RedditResearchAgent).

(** [for x in l: body x] *)
Fixpoint for_each {A} (l : list A) (body : A -> M unit) : M unit :=
  match l with
  | [] => ret tt
  | x :: rest => body x;; for_each rest body
  end.

(** [datetime.utcnow().isoformat()] *)
Definition utcnow_isoformat : M pyval :=
  t ← get_time; ret (PStr (isoformat env t)).

(** Lines 324-343: draft and post a reply while the cap allows it. *)
Definition reply_below_cap (post_content : string) (comment : Comment) : M unit :=
  replied ← get generated_replies;
  if bool_decide (size replied < Config.max_replies_per_thread)%nat then
    reply_content ←
      generate_reply self
        ("Original Post: " +:+ post_content +:+ nl +:+ nl +:+
         "Comment: " +:+ comment_body comment);
    try_except
      (reply_id ← platform env (CallReply (comment_id comment) reply_content)
                    (fun t => comment_reply env t (comment_id comment) reply_content);
       modify (fun w => set_generated_replies ({[reply_id]} ∪ generated_replies w) w);;
       timestamp ← utcnow_isoformat;
       add_reply
         [PDict [("id", PStr reply_id);
                 ("content", PStr reply_content);
                 ("upvotes", PInt 0);
                 ("sentiment", analyze_sentiment env reply_content);
                 ("timestamp", timestamp);
                 ("is_bot_generated", PBool true)]])
      (fun e => print ("Error posting reply: " +:+ exn_str e))
  else ret tt.

(** Lines 308-343: the body of the loop over the comments. *)
Definition process_comment (post_content : string) (score : Z) (comment : Comment) : M unit :=
  replied ← get generated_replies;
  worthy ← (if bool_decide (comment_id comment ∉ replied)
            then lift (should_reply (comment_score comment) score)
            else ret false);
  if (worthy : bool) then
    let sentiment := analyze_sentiment env (comment_body comment) in
    add_reply
      [PDict [("id", PStr (comment_id comment));
              ("content", PStr (comment_body comment));
              ("upvotes", PInt (comment_score comment));
              ("sentiment", sentiment);
              ("timestamp", PStr (isoformat env (comment_created_utc comment)));
              ("is_bot_generated", PBool false)]];;
    reply_below_cap post_content comment
  else ret tt.

(** Lines 294-346: one pass of the monitoring loop; [true] is [break].
    [post.comments.replace_more(limit=None)] is one entry of the trace,
    however many requests praw sends for it; [post.comments.list()] reads
    what it has loaded and sends nothing. *)
Definition monitoring_pass (post_id post_content : string) : M bool :=
  view ← platform env (CallRefresh post_id) (fun t => post_refresh env t post_id);
  if has_removed view then
    print "Post was removed by moderators";;
    timestamp ← utcnow_isoformat;
    update_post [PDict [("status", PStr "removed"); ("timestamp", timestamp)]];;
    ret true
  else
    comments ← platform env (CallReplaceMore post_id) (fun _ => post_comments view);
    for_each comments (process_comment post_content (post_score view));;
    sleep Config.check_interval;;
    ret false.

(** Lines 293-350: the pass inside its [try], with the handler that logs
    the error and sleeps. *)
Definition guarded_pass (post_id post_content : string) : M bool :=
  try_except
    (monitoring_pass post_id post_content)
    (fun e =>
       print ("Error monitoring responses: " +:+ exn_str e);;
       sleep Config.check_interval;;
       ret false).

(** Lines 292-350.  A pass that does not [break] ends with a sleep of
    [check_interval], so six passes exhaust [monitoring_duration]; [passes]
    bounds the number of passes still to run. *)
Fixpoint monitor_loop (passes : nat) (post_id post_content : string) (start_time : Z) : M unit :=
  t ← get_time;
  if t - start_time <? Config.monitoring_duration then
    match passes with
    | O => ret tt
    | S passes' =>
        stop ← guarded_pass post_id post_content;
        if (stop : bool) then ret tt
        else monitor_loop passes' post_id post_content start_time
    end
  else ret tt.

Definition max_passes : nat := 6.

(** Lines 289-350. *)
Definition monitor (post_id post_content : string) : M unit :=
  start_time ← get_time;
  modify (set_generated_replies ∅);;
  monitor_loop max_passes post_id post_content start_time.

(** Lines 272-286: [Some post_id] when the [try] block completes, [None]
    when the handler returns [None] from [run_research]. *)
Definition make_post (subreddit post_content : string) : M (option string) :=
  try_except
    (title ← lift (index0 (str_split newline post_content));
     let selftext := str_join nl (slice_from1 (str_split newline post_content)) in
     post_id ← platform env (CallSubmit title selftext)
                 (fun t => subreddit_submit env t subreddit title selftext);
     timestamp ← utcnow_isoformat;
     update_post
       [PDict [("id", PStr post_id);
               ("content", PStr post_content);
               ("timestamp", timestamp);
               ("status", PStr "active")]];;
     ret (Some post_id))
    (fun e =>
       print ("Error posting to Reddit: " +:+ exn_str e);;
       ret None).

Definition run_research (research_prompt subreddit_name : string)
    (research_id : option string) : M (option string) :=
  research_id ← match research_id with
                | None => t ← get_time; ret ("research_" +:+ pretty t)
                | Some given => ret given
                end;
  subreddit ← get_subreddit env subreddit_name;
  match subreddit with
  | None =>
      print ("Could not access subreddit: " +:+ subreddit_name);;
      ret None
  | Some subreddit =>
      style_template ← analyze_subreddit self subreddit;
      post_content ← generate_post self style_template research_prompt;
      initialize_research
        [PStr research_id; PStr research_prompt; PStr subreddit_name; PStr style_template];;
      posted ← make_post subreddit post_content;
      match posted with
      | None => ret None
      | Some post_id =>
          monitor post_id post_content;;
          save_research env
            [PStr research_id;
             PStr ("research_data_" +:+ research_id +:+ ".json")];;
          ret (Some research_id)
      end
  end.

End Orchestrator.

(** ** The two variants *)

Inductive Variant := OpenAIVariant | GeminiVariant.

Definition agent (v : Variant) (env : Environment) : RedditResearchAgent :=
  match v with
  | OpenAIVariant => OpenAI.agent env
  | GeminiVariant => Gemini.agent env
  end.

(** ** Notions the specification speaks of *)

(** The part of a text before its first occurrence of [sep], and the part
    after it (empty when [sep] does not occur). *)
Fixpoint before_first (sep : ascii) (s : string) : string :=
  match s with
  | EmptyString => EmptyString
  | String c rest =>
      if Ascii.eqb c sep then EmptyString else String c (before_first sep rest)
  end.

Fixpoint after_first (sep : ascii) (s : string) : string :=
  match s with
  | EmptyString => EmptyString
  | String c rest => if Ascii.eqb c sep then rest else after_first sep rest
  end.

Fixpoint occurs (sep : ascii) (s : string) : bool :=
  match s with
  | EmptyString => false
  | String c rest => Ascii.eqb c sep || occurs sep rest
  end.

(** The platform calls of a trace, without their times. *)
Definition issued (w : World) : list PlatformCall := map snd (calls w).

Definition is_reply_to (comment : string) (c : PlatformCall) : bool :=
  match c with
  | CallReply target _ => String.eqb target comment
  | _ => false
  end.

Definition is_reply (c : PlatformCall) : bool :=
  match c with CallReply _ _ => true | _ => false end.

Definition is_post (c : PlatformCall) : bool :=
  match c with CallSubmit _ _ | CallReply _ _ => true | _ => false end.

(** Replies the bot has posted to the comment [comment]; all its replies. *)
Definition replies_to (comment : string) (w : World) : nat :=
  length (filter (fun c => is_reply_to comment c = true) (issued w)).

Definition replies_posted (w : World) : nat :=
  length (filter (fun c => is_reply c = true) (issued w)).

(** Bot-authored snapshots in a research record. *)
Definition is_bot_snapshot (v : pyval) : bool :=
  match v with
  | PDict items =>
      match dict_get "is_bot_generated" items with
      | Some (PBool true) => true
      | _ => false
      end
  | _ => false
  end.

Definition bot_snapshots (r : ResearchData.t) : nat :=
  length (filter (fun v => is_bot_snapshot v = true)
                 (replies (ResearchData.interactions r))).

(** The status recorded for the post of a research record. *)
Definition post_status (r : ResearchData.t) : option pyval :=
  match ResearchData.post r with
  | PDict items => dict_get "status" items
  | _ => None
  end.

(** Every platform call but the first is issued at least [delay] after the
    one before it. *)
Fixpoint spaced (delay : Z) (trace : list (Z * PlatformCall)) : bool :=
  match trace with
  | [] => true
  | (t1, _) :: rest =>
      match rest with
      | [] => true
      | (t2, _) :: _ => (t1 + delay <=? t2) && spaced delay rest
      end
  end.

(** A call that polls a post: a refresh, or the expansion of its comments. *)
Definition is_poll (c : PlatformCall) : Prop :=
  exists post_id, c = CallRefresh post_id \/ c = CallReplaceMore post_id.

(** What a stretch of the program that only polls has done to the world. *)
Definition only_polls (w w' : World) : Prop :=
  data w' = data w /\ files w' = files w /\
  generated_replies w' = generated_replies w /\
  now w <= now w' /\
  exists extra,
    calls w' = calls w ++ extra /\
    Forall (fun c => is_poll (snd c)) extra.

(** The decimal [0.05] and the product [p * 0.05] as exact rationals. *)
Definition exact_threshold : Q := 5 # 100.
Definition exact_product (post_score : Z) : Q := inject_Z post_score * exact_threshold.



(** [x] and the hardware double [f] are the same number. *)
Definition same_double (x : Float64.t) (f : float) : bool :=
  match Prim2SF f with
  | S754_zero _ => Float64.mant x =? 0
  | S754_finite negative m e =>
      let m' := if negative then Z.neg m else Z.pos m in
      let low := Z.min e (Float64.expo x) in
      m' * 2 ^ (e - low) =? Float64.mant x * 2 ^ (Float64.expo x - low)
  | _ => false
  end.

(** [float(n) * 0.05] on the hardware, for [0 <= n < 2^63]. *)
Definition hardware_product (n : Z) : float :=
  PrimFloat.mul (PrimFloat.of_uint63 (Uint63.of_Z n)) 0x1.999999999999ap-5%float.

Definition model_product (n : Z) : Float64.t :=
  match Float64.of_int n with
  | Ok x => Float64.mul x Config.upvote_ratio_threshold
  | Raise _ => Float64.mk 0 0
  end.

(** ** Sample environments *)

Definition two_lines : string := "Title Line" +:+ nl +:+ "Body line".

(** The platform accepts everything and reports the post with a [removed]
    attribute at every refresh; the LLM answers with a two-line text; every
    call takes one second. *)
Definition env_ok : Environment :=
  {| subreddit_title := fun _ _ => Ok tt;
     subreddit_hot := fun _ _ => Ok [];
     subreddit_submit := fun _ _ _ _ => Ok "p1";
     post_refresh := fun _ _ =>
       Ok {| has_removed := true; post_score := 100; post_comments := Ok [] |};
     comment_reply := fun _ _ _ => Ok "r1";
     llm := fun _ _ => Ok two_lines;
     latency := fun _ => 1%N;
     json_dumps := fun _ => "[]";
     to_json := fun r => Ok (ResearchData.research_id r);
     file_open := fun _ _ => Ok tt;
     file_write := fun _ _ _ => Written;
     isoformat := fun t => pretty t;
     textblob_sentiment := fun _ => PDict [] |}.

(** The same, with a subreddit that cannot be resolved. *)
Definition env_unresolvable : Environment :=
  {| subreddit_title := fun _ _ => Raise (ExternalError "received 404 HTTP response");
     subreddit_hot := subreddit_hot env_ok;
     subreddit_submit := subreddit_submit env_ok;
     post_refresh := post_refresh env_ok;
     comment_reply := comment_reply env_ok;
     llm := llm env_ok;
     latency := latency env_ok;
     json_dumps := json_dumps env_ok;
     to_json := to_json env_ok;
     file_open := file_open env_ok;
     file_write := file_write env_ok;
     isoformat := isoformat env_ok;
     textblob_sentiment := textblob_sentiment env_ok |}.

(** The same as [env_ok], with an LLM provider that fails at every call. *)
Definition env_llm_down : Environment :=
  {| subreddit_title := subreddit_title env_ok;
     subreddit_hot := subreddit_hot env_ok;
     subreddit_submit := subreddit_submit env_ok;
     post_refresh := post_refresh env_ok;
     comment_reply := comment_reply env_ok;
     llm := fun _ _ => Raise (ExternalError "quota exceeded");
     latency := latency env_ok;
     json_dumps := json_dumps env_ok;
     to_json := to_json env_ok;
     file_open := file_open env_ok;
     file_write := file_write env_ok;
     isoformat := isoformat env_ok;
     textblob_sentiment := textblob_sentiment env_ok |}.

Definition t0 : Z := 1700000000.

(** ** [main] *)
Section Main.

Context (env : Environment) (self : RedditResearchAgent).

(** [agent = RedditResearchAgent()]: a new [RedditAPI] and a new
    [DataCollectionAgent]. *)
Definition new_agent : M unit :=
  modify (fun w => set_last_api_call 0 (set_data ∅ w)).

(** Lines 361-370.  [if research_id:] holds for a non-empty string. *)
Definition main : M unit :=
  new_agent;;
  research_id ← run_research env self
                  "What features do users want in next-generation smartphones?"
                  "smartphones" None;
  match research_id with
  | Some (String c rest) =>
      print ("Research completed successfully. ID: " +:+ String c rest)
  | _ => print "Research failed to complete"
  end.

End Main.

(** ** Further notions and samples *)

(** The record [initialize_research] stores. *)
Definition new_record (research_id prompt subreddit style_template : string)
    : ResearchData.t :=
  {| ResearchData.research_id := research_id;
     ResearchData.original_prompt := prompt;
     ResearchData.subreddit := subreddit;
     ResearchData.style_template := style_template;
     ResearchData.post := PDict [];
     ResearchData.interactions :=
       {| replies := [];
          metrics := PDict [("total_engagement", PInt 0);
                            ("sentiment_overview", PDict []);
                            ("key_insights", PList [])] |} |}.

(** The time at which the rate limiter lets a call through. *)
Definition earliest_call (w : World) : Z :=
  Z.max (now w) (last_api_call w + Config.rate_limit_delay).

(** The smallest comment score that is worth a reply under a post of score
    [post_score]. *)
Definition least_worthy_score (post_score : Z) : Z :=
  Z.max (Config.min_upvotes + 1) (post_score / 20 + 1).

(** A comment the loop body passes over: its id is in [generated_replies],
    or it is not worth a reply. *)
Definition passed_over (w : World) (score : Z) (c : Comment) : Prop :=
  comment_id c ∈ generated_replies w \/
  should_reply (comment_score c) score = Ok false.

(** [env_ok] with a listing of hot posts that fails. *)
Definition env_hot_down : Environment :=
  {| subreddit_title := subreddit_title env_ok;
     subreddit_hot := fun _ _ => Raise (ExternalError "received 403 HTTP response");
     subreddit_submit := subreddit_submit env_ok;
     post_refresh := post_refresh env_ok;
     comment_reply := comment_reply env_ok;
     llm := llm env_ok;
     latency := latency env_ok;
     json_dumps := json_dumps env_ok;
     to_json := to_json env_ok;
     file_open := file_open env_ok;
     file_write := file_write env_ok;
     isoformat := isoformat env_ok;
     textblob_sentiment := textblob_sentiment env_ok |}.

(** [env_ok] with a platform that rejects replies. *)
Definition env_reply_down : Environment :=
  {| subreddit_title := subreddit_title env_ok;
     subreddit_hot := subreddit_hot env_ok;
     subreddit_submit := subreddit_submit env_ok;
     post_refresh := post_refresh env_ok;
     comment_reply := fun _ _ _ => Raise (ExternalError "RATELIMIT");
     llm := llm env_ok;
     latency := latency env_ok;
     json_dumps := json_dumps env_ok;
     to_json := to_json env_ok;
     file_open := file_open env_ok;
     file_write := file_write env_ok;
     isoformat := isoformat env_ok;
     textblob_sentiment := textblob_sentiment env_ok |}.

Definition sample_comment : Comment :=
  {| comment_id := "c1"; comment_body := "a comment"; comment_score := 9;
     comment_created_utc := t0 |}.

(** A state in which the record "r1" exists. *)
Definition world_with_record : World :=
  set_data {["r1" := new_record "r1" "topic" "smartphones" "style"]} (initial_world t0).

(** [env_ok] with a platform that rejects the submission. *)
Definition env_submit_down : Environment :=
  {| subreddit_title := subreddit_title env_ok;
     subreddit_hot := subreddit_hot env_ok;
     subreddit_submit := fun _ _ _ _ => Raise (ExternalError "SUBREDDIT_NOTALLOWED");
     post_refresh := post_refresh env_ok;
     comment_reply := comment_reply env_ok;
     llm := llm env_ok;
     latency := latency env_ok;
     json_dumps := json_dumps env_ok;
     to_json := to_json env_ok;
     file_open := file_open env_ok;
     file_write := file_write env_ok;
     isoformat := isoformat env_ok;
     textblob_sentiment := textblob_sentiment env_ok |}.

(** The indentation of the prompt templates of a variant. *)
Definition prompt_indent (v : Variant) : string :=
  match v with
  | OpenAIVariant => OpenAI.indent
  | GeminiVariant => Gemini.indent
  end.

(** The refreshes of the post in a stretch of the trace; the other poll of
    a pass is the expansion of the comments. *)
Definition is_refresh (c : PlatformCall) : bool :=
  match c with CallRefresh _ => true | _ => false end.

Definition refreshes (trace : list (Z * PlatformCall)) : list (Z * PlatformCall) :=
  List.filter (fun c => is_refresh (snd c)) trace.

(** * Theorems *)

(** ** Strings *)

Lemma str_split_nonempty sep s : str_split sep s <> [].
Proof.
  destruct s as [|c rest]; simpl; [discriminate|].
  destruct (Ascii.eqb c sep); [discriminate|].
  destruct (str_split sep rest); discriminate.
Qed.

Lemma str_split_head sep s :
  index0 (str_split sep s) = Ok (before_first sep s).
Proof.
  induction s as [|c rest IH]; simpl; [reflexivity|].
  destruct (Ascii.eqb c sep); [reflexivity|].
  destruct (str_split sep rest) as [|piece pieces]; simpl in *.
  - discriminate.
  - congruence.
Qed.

Lemma str_join_split sep s :
  str_join (String sep EmptyString) (str_split sep s) = s.
Proof.
  induction s as [|c rest IH]; simpl; [reflexivity|].
  destruct (Ascii.eqb_spec c sep) as [->|Hne].
  - pose proof (str_split_nonempty sep rest) as Hnil.
    destruct (str_split sep rest) as [|piece pieces]; [congruence|].
    simpl. simpl in IH. rewrite IH. reflexivity.
  - pose proof (str_split_nonempty sep rest) as Hnil.
    destruct (str_split sep rest) as [|piece pieces]; [congruence|].
    destruct pieces as [|p2 ps]; simpl in *; subst rest; reflexivity.
Qed.

Lemma str_join_split_tail sep s :
  str_join (String sep EmptyString) (slice_from1 (str_split sep s)) = after_first sep s.
Proof.
  induction s as [|c rest IH]; simpl; [reflexivity|].
  destruct (Ascii.eqb c sep).
  - unfold slice_from1. simpl. rewrite drop_0. apply str_join_split.
  - pose proof (str_split_nonempty sep rest) as Hnil.
    destruct (str_split sep rest) as [|piece pieces]; [congruence|].
    exact IH.
Qed.

Lemma before_first_no_sep sep s : occurs sep (before_first sep s) = false.
Proof.
  induction s as [|c rest IH]; simpl; [reflexivity|].
  destruct (Ascii.eqb c sep) eqn:E; simpl; [reflexivity|].
  rewrite E. exact IH.
Qed.

Lemma before_after_first sep s :
  s = if occurs sep s
      then before_first sep s +:+ String sep (after_first sep s)
      else before_first sep s.
Proof.
  induction s as [|c rest IH]; simpl; [reflexivity|].
  destruct (Ascii.eqb_spec c sep) as [->|Hne]; simpl; [reflexivity|].
  destruct (occurs sep rest); rewrite IH at 1; reflexivity.
Qed.

(** ** The reply-worthiness predicate *)

Module Float64Facts.
Import Float64.

Lemma round_nonneg_spec n e :
  0 < n ->
  let sh := Z.max 0 (Z.log2 n + 1 - prec) in
  exists m,
    round_nonneg n e = mk m (e + sh) /\
    n / 2 ^ sh <= m <= n / 2 ^ sh + 1 /\
    (sh = 0 -> m = n) /\
    (0 < sh -> 2 ^ 52 * 2 ^ sh <= n).
Proof.
  intros Hn sh. unfold round_nonneg.
  destruct (Z.leb_spec (Z.log2 n + 1 - prec) 0) as [Hle|Hgt].
  - assert (Hsh : sh = 0) by (unfold sh; lia).
    exists n. rewrite Hsh, Z.add_0_r, Z.pow_0_r, Z.div_1_r.
    repeat split; lia.
  - assert (Hsh : sh = Z.log2 n + 1 - prec) by (unfold sh; lia).
    rewrite <- Hsh.
    eexists. split; [reflexivity|]. split; [|split].
    + destruct (n mod 2 ^ sh <? 2 ^ (sh - 1)); [lia|].
      destruct (2 ^ (sh - 1) <? n mod 2 ^ sh); [lia|].
      destruct (Z.even (n / 2 ^ sh)); lia.
    + lia.
    + intros _. rewrite <- Z.pow_add_r by lia.
      replace (52 + sh) with (Z.log2 n) by (unfold prec in *; lia).
      apply Z.log2_spec. exact Hn.
Qed.

Lemma of_int_exact p : Z.abs p < 2 ^ 53 -> of_int p = Ok (mk p 0).
Proof.
  intros Hp. unfold of_int.
  assert (Hr : round p 0 = mk p 0).
  { unfold round, round_nonneg.
    assert (Hlog : forall n, 0 <= n < 2 ^ 53 -> Z.log2 n + 1 - prec <= 0).
    { intros n Hn. unfold prec.
      destruct (Z.eq_dec n 0) as [->|Hne]; [simpl; lia|].
      assert (Z.log2 n < 53) by (apply Z.log2_lt_pow2; lia). lia. }
    destruct (Z.ltb_spec p 0).
    - destruct (Z.leb_spec (Z.log2 (- p) + 1 - prec) 0) as [_|Hgt].
      + simpl. f_equal. lia.
      + specialize (Hlog (- p)). lia.
    - destruct (Z.leb_spec (Z.log2 p + 1 - prec) 0) as [_|Hgt].
      + reflexivity.
      + specialize (Hlog p). lia. }
  rewrite Hr. simpl mant. simpl expo.
  destruct (Z.leb_spec (2 ^ 1024) (Z.abs p * 2 ^ 0)) as [Hbig|_]; [|reflexivity].
  exfalso. rewrite Z.pow_0_r, Z.mul_1_r in Hbig.
  assert (2 ^ 53 < 2 ^ 1024) by (apply Z.pow_lt_mono_r; lia). lia.
Qed.

End Float64Facts.

Section ShouldReply.
Import Float64.

(** 0.05 as a double is (2^56 + 4) / (20 * 2^56). *)
Lemma threshold_value :
  20 * mant Config.upvote_ratio_threshold = 2 ^ 56 + 4 /\
  expo Config.upvote_ratio_threshold = -56.
Proof. split; reflexivity. Qed.

Lemma int_gt_neg_expo n m e :
  e < 0 -> int_gt n (mk m e) = (m <? n * 2 ^ (- e)).
Proof.
  intros He. unfold int_gt. simpl.
  destruct (Z.leb_spec 0 e); [lia|reflexivity].
Qed.

Lemma int_gt_nonpos n m e : 0 < n -> m <= 0 -> int_gt n (mk m e) = true.
Proof.
  intros Hn Hm. unfold int_gt. simpl.
  destruct (Z.leb_spec 0 e).
  - apply Z.ltb_lt. assert (0 < 2 ^ e) by (apply Z.pow_pos_nonneg; lia). nia.
  - apply Z.ltb_lt. assert (0 < 2 ^ (- e)) by (apply Z.pow_pos_nonneg; lia). nia.
Qed.

Lemma product_gt score p :
  0 < p < 2 ^ 51 ->
  int_gt score (mul (mk p 0) Config.upvote_ratio_threshold) = true <-> p < 20 * score.
Proof.
  intros Hp. unfold mul. simpl mant. simpl expo. change (0 + -56) with (-56).
  set (M := 3602879701896397).
  assert (HM : 20 * M = 72057594037927936 + 4) by reflexivity.
  change (2 ^ 51) with 2251799813685248 in Hp.
  assert (Hn : 0 < p * M) by nia.
  unfold round. destruct (Z.ltb_spec (p * M) 0) as [|_]; [lia|].
  destruct (Float64Facts.round_nonneg_spec (p * M) (-56) Hn) as (m & -> & Hm & H0 & Hpos).
  set (sh := Z.max 0 (Z.log2 (p * M) + 1 - prec)) in *.
  assert (Hsh0 : 0 <= sh) by (unfold sh; lia).
  assert (Hsh : sh <= 50).
  { assert (Z.log2 (p * M) < 103).
    { apply Z.log2_lt_pow2; [lia|]. change (2 ^ 103) with (2251799813685248 * 2 ^ 52).
      change (2 ^ 52) with 4503599627370496. nia. }
    unfold sh, prec. lia. }
  rewrite int_gt_neg_expo by lia.
  replace (- (-56 + sh)) with (56 - sh) by lia.
  set (P := 2 ^ sh) in *. set (Q := 2 ^ (56 - sh)).
  assert (HPQ : P * Q = 72057594037927936).
  { unfold P, Q. rewrite <- Z.pow_add_r by lia.
    replace (sh + (56 - sh)) with 56 by lia. reflexivity. }
  assert (HP : 0 < P) by (apply Z.pow_pos_nonneg; lia).
  assert (HQ : 0 < Q) by (apply Z.pow_pos_nonneg; lia).
  assert (Hsmall : P <= p).
  { destruct (Z.eq_dec sh 0) as [E|E].
    - unfold P. rewrite E. simpl. lia.
    - change (2 ^ 52) with 4503599627370496 in Hpos.
      assert (4503599627370496 * P <= p * M) by (apply Hpos; lia). nia. }
  rewrite Z.ltb_lt. split.
  - intros Hlt. destruct (Z.lt_ge_cases p (20 * score)) as [|Hge]; [assumption|].
    exfalso.
    assert (score * Q <= p * M / P).
    { apply Z.div_le_lower_bound; [lia|]. nia. }
    lia.
  - intros Hlt.
    assert (p * M / P < score * Q - 1).
    { apply Z.div_lt_upper_bound; [lia|]. nia. }
    lia.
Qed.

End ShouldReply.

(** ** Unfolding the monad *)

Ltac unfold_monad :=
  unfold mbind, M_bind, mret, M_ret, bind, ret, raise, try_except, lift,
    get, modify, print, sleep, get_time, platform, provider,
    utcnow_isoformat in *.

Section OrchestratorFacts.

Context (env : Environment) (self : RedditResearchAgent).

(** The submission block always ends in its handler: the text is split,
    the post is submitted, and, if the platform accepts it, [update_post]
    is called with the dict alone and raises [TypeError]. *)
Lemma make_post_spec subreddit post_content w :
  exists line,
    make_post env subreddit post_content w =
      (Ok None,
       set_stdout (stdout w ++ [line])
         (set_now (now w + Z.of_N (latency env (now w)))
            (set_calls
               (calls w ++
                  [(now w, CallSubmit (before_first newline post_content)
                                      (after_first newline post_content))]) w))).
Proof.
  unfold make_post. unfold_monad.
  rewrite str_split_head. unfold nl. rewrite str_join_split_tail.
  destruct (subreddit_submit env (now w) subreddit
              (before_first newline post_content)
              (after_first newline post_content)) as [post_id|e];
    simpl; eexists; reflexivity.
Qed.

(** The body of the comment loop leaves the state as it found it: a comment
    is skipped, or [add_reply], called with the dict alone, raises
    [TypeError] before anything is drafted. *)
Lemma process_comment_world post_content score comment w :
  snd (process_comment env self post_content score comment w) = w /\
  (comment_id comment ∈ generated_replies w ->
   process_comment env self post_content score comment w = (Ok tt, w)).
Proof.
  unfold process_comment. unfold_monad. simpl.
  destruct (bool_decide (comment_id comment ∉ generated_replies w)) eqn:Hin.
  - split.
    + destruct (should_reply (comment_score comment) score) as [[|]|e]; reflexivity.
    + intros Hmem. apply bool_decide_eq_true in Hin. contradiction.
  - split; reflexivity.
Qed.

End OrchestratorFacts.

Lemma only_polls_refl w : only_polls w w.
Proof.
  repeat split; try lia. exists []. split; [symmetry; apply app_nil_r|constructor].
Qed.

Lemma only_polls_trans w1 w2 w3 :
  only_polls w1 w2 -> only_polls w2 w3 -> only_polls w1 w3.
Proof.
  intros (Hd & Hf & Hg & Hn & x & Hc & Hx) (Hd' & Hf' & Hg' & Hn' & y & Hc' & Hy).
  repeat split; try congruence; try lia.
  exists (x ++ y). split.
  - rewrite Hc', Hc, app_assoc. reflexivity.
  - apply Forall_app. split; assumption.
Qed.

Section MonitorFacts.

Context (env : Environment) (self : RedditResearchAgent).

Lemma for_each_process_world post_content score comments w :
  snd (for_each comments (process_comment env self post_content score) w) = w.
Proof.
  induction comments as [|c rest IH]; [reflexivity|].
  simpl. unfold mbind, M_bind, bind.
  pose proof (process_comment_world env self post_content score c w) as [Hw _].
  destruct (process_comment env self post_content score c w) as [[[]|e] w1];
    simpl in Hw; subst w1; [apply IH|reflexivity].
Qed.

(** Every pass refreshes the post once and expands its comments at most
    once, changes neither records, files nor [generated_replies], sleeps for
    [check_interval] and does not [break]. *)
Lemma guarded_pass_spec post_id post_content w :
  exists w',
    guarded_pass env self post_id post_content w = (Ok false, w') /\
    only_polls w w' /\
    now w + Config.check_interval <= now w' /\
    exists rest,
      calls w' = calls w ++ (now w, CallRefresh post_id) :: rest /\
      Forall (fun c => now w <= fst c /\ snd c = CallReplaceMore post_id) rest /\
      (length rest <= 1)%nat.
Proof.
  unfold guarded_pass, monitoring_pass. unfold_monad.
  assert (Hlat : 0 <= Z.of_N (latency env (now w))) by lia.
  assert (Hlat' : 0 <= Z.of_N (latency env (now w + Z.of_N (latency env (now w)))))
    by lia.
  assert (Hrefresh : is_poll (CallRefresh post_id)) by (exists post_id; left; reflexivity).
  assert (Hmore : is_poll (CallReplaceMore post_id))
    by (exists post_id; right; reflexivity).
  destruct (post_refresh env (now w) post_id) as [view|e]; simpl.
  - destruct (has_removed view); simpl.
    + eexists. split; [reflexivity|]. simpl.
      unfold only_polls, Config.check_interval; simpl.
      repeat split; try lia.
      * eexists. split; [reflexivity|]. repeat constructor. exact Hrefresh.
      * exists []. repeat split; [constructor|simpl; lia].
    + destruct (post_comments view) as [comments|e]; simpl.
      * match goal with |- context [for_each comments ?f ?u] =>
          pose proof (for_each_process_world post_content (post_score view) comments u)
            as Hw;
          destruct (for_each comments f u) as [[[]|e] w1] end;
          simpl in Hw; subst w1; simpl.
        all: eexists; split; [reflexivity|]; simpl.
        all: unfold only_polls, Config.check_interval; simpl.
        all: rewrite <- !app_assoc; simpl.
        all: repeat split; try lia.
        all: try (eexists; split; [reflexivity|]; repeat constructor; assumption).
        all: eexists; split; [reflexivity|]; split;
          [repeat constructor; simpl; lia|simpl; lia].
      * eexists; split; [reflexivity|]; simpl.
        unfold only_polls, Config.check_interval; simpl.
        rewrite <- !app_assoc; simpl.
        repeat split; try lia.
        -- eexists; split; [reflexivity|]; repeat constructor; assumption.
        -- eexists; split; [reflexivity|]; split;
             [repeat constructor; simpl; lia|simpl; lia].
  - eexists; split; [reflexivity|]; simpl.
    unfold only_polls, Config.check_interval; simpl.
    repeat split; try lia.
    + eexists; split; [reflexivity|]; repeat constructor; exact Hrefresh.
    + exists []. repeat split; [constructor|simpl; lia].
Qed.

Lemma monitor_loop_step passes post_id post_content start_time w :
  monitor_loop env self (S passes) post_id post_content start_time w =
    if now w - start_time <? Config.monitoring_duration then
      match guarded_pass env self post_id post_content w with
      | (Ok true, w') => (Ok tt, w')
      | (Ok false, w') => monitor_loop env self passes post_id post_content start_time w'
      | (Raise e, w') => (Raise e, w')
      end
    else (Ok tt, w).
Proof.
  simpl. unfold guarded_pass. unfold_monad. simpl.
  destruct (now w - start_time <? Config.monitoring_duration); [|reflexivity].
  destruct (monitoring_pass env self post_id post_content w) as [[[]|e] w1]; reflexivity.
Qed.

(** The loop ends normally and has only polled. *)
Lemma monitor_loop_spec passes post_id post_content start_time w :
  exists w',
    monitor_loop env self passes post_id post_content start_time w = (Ok tt, w') /\
    only_polls w w'.
Proof.
  revert w. induction passes as [|passes IH]; intros w.
  - exists w. split; [|apply only_polls_refl].
    simpl. unfold_monad.
    destruct (now w - start_time <? Config.monitoring_duration); reflexivity.
  - rewrite monitor_loop_step.
    destruct (now w - start_time <? Config.monitoring_duration).
    + destruct (guarded_pass_spec post_id post_content w) as (w1 & -> & H1 & _).
      destruct (IH w1) as (w2 & -> & H2).
      exists w2. split; [reflexivity|]. eapply only_polls_trans; eassumption.
    + exists w. split; [reflexivity|apply only_polls_refl].
Qed.

(** Once at most [n] passes fit into the time that is left, a larger bound
    on the number of passes changes nothing. *)
Lemma monitor_loop_fuel n post_id post_content start_time :
  forall m w,
    (n <= m)%nat ->
    Config.monitoring_duration - Z.of_nat n * Config.check_interval
      <= now w - start_time ->
    monitor_loop env self m post_id post_content start_time w =
    monitor_loop env self n post_id post_content start_time w.
Proof.
  induction n as [|n IH]; intros m w Hm Hw.
  - assert (Hdone : (now w - start_time <? Config.monitoring_duration) = false)
      by (apply Z.ltb_ge; lia).
    destruct m; simpl; unfold_monad; rewrite Hdone; reflexivity.
  - destruct m as [|m]; [lia|].
    rewrite !monitor_loop_step.
    destruct (now w - start_time <? Config.monitoring_duration); [|reflexivity].
    destruct (guarded_pass_spec post_id post_content w) as (w1 & -> & _ & Hsleep & _).
    apply IH; [lia|]. unfold Config.check_interval in *. lia.
Qed.

End MonitorFacts.

Section RunFacts.

Context (env : Environment).

Ltac use_make_post :=
  match goal with
  | |- context [make_post ?e ?s ?c ?w] =>
      let line := fresh "line" in
      destruct (make_post_spec e s c w) as [line ->]
  end.

Ltac finish_summary :=
  simpl; eexists _, _; split; [reflexivity|]; simpl;
  repeat split; eauto;
  try (eexists; split;
       [ rewrite <- ?app_assoc; reflexivity || (symmetry; apply app_nil_r)
       | repeat constructor ]);
  try (intros key record; rewrite lookup_insert; case_decide;
       [intros [= <-]; right; reflexivity | intros ->; left; reflexivity]).

(** Whatever the platform and the LLM answer, a run ends in [None] or in
    an exception, writes no file, posts no reply, and leaves no snapshot
    in a record it has created. *)
Lemma run_research_summary v research_prompt subreddit_name research_id w :
  exists r w',
    run_research env (agent v env) research_prompt subreddit_name research_id w = (r, w') /\
    (r = Ok None \/ exists e, r = Raise e) /\
    files w' = files w /\
    (exists extra,
        calls w' = calls w ++ extra /\
        Forall (fun c => is_reply (snd c) = false) extra) /\
    (forall key record,
        data w' !! key = Some record ->
        data w !! key = Some record \/
        replies (ResearchData.interactions record) = []).
Proof.
  unfold run_research, get_subreddit, _respect_rate_limit.
  destruct v; unfold agent, OpenAI.agent, Gemini.agent; simpl;
    unfold OpenAI.analyze_subreddit, OpenAI.generate_post,
      Gemini.analyze_subreddit, Gemini.generate_post, Gemini.generate_text,
      initialize_research;
    unfold_monad.
  all: destruct research_id as [given|]; simpl.
  all: destruct (_ <? Config.rate_limit_delay); simpl.
  all: match goal with |- context [subreddit_title env ?t ?n] =>
         destruct (subreddit_title env t n) as [[]|?] end; simpl.
  all: try (finish_summary; fail).
  all: match goal with |- context [subreddit_hot env ?t ?n] =>
         destruct (subreddit_hot env t n) as [?|?] end; simpl.
  all: try (finish_summary; fail).
  all: match goal with |- context [llm env ?t ?n] =>
         destruct (llm env t n) as [?|?] end; simpl.
  all: try (finish_summary; fail).
  all: match goal with |- context [llm env ?t ?n] =>
         destruct (llm env t n) as [?|?] end; simpl.
  all: try (finish_summary; fail).
  all: use_make_post.
  all: try (finish_summary; fail).
Qed.

End RunFacts.

(** ** Counting the calls of a trace *)

Lemma no_reply_filter comment (extra : list (Z * PlatformCall)) :
  Forall (fun c => is_reply (snd c) = false) extra ->
  filter (fun c => is_reply_to comment c = true) (map snd extra) = [] /\
  filter (fun c => is_reply c = true) (map snd extra) = [].
Proof.
  induction 1 as [|[t c] rest Hc _ [IH1 IH2]]; [split; reflexivity|].
  simpl in *. destruct c; simpl in *; try discriminate;
    rewrite ?filter_cons; simpl; split; assumption.
Qed.

Lemma polls_are_not_replies (extra : list (Z * PlatformCall)) :
  Forall (fun c => is_poll (snd c)) extra ->
  Forall (fun c => is_reply (snd c) = false) extra.
Proof.
  intros H. eapply Forall_impl; [exact H|].
  intros [t c] [post_id [Hc|Hc]]; simpl in *; subst c; reflexivity.
Qed.

Lemma replies_unchanged comment w w' extra :
  calls w' = calls w ++ extra ->
  Forall (fun c => is_reply (snd c) = false) extra ->
  replies_to comment w' = replies_to comment w /\
  replies_posted w' = replies_posted w.
Proof.
  intros Hcalls Hextra. unfold replies_to, replies_posted, issued.
  rewrite Hcalls, map_app, !filter_app.
  destruct (no_reply_filter comment extra Hextra) as [-> ->].
  rewrite !app_nil_r. split; reflexivity.
Qed.

(** ** C6: a subreddit that cannot be resolved *)

(** C6. When the subreddit cannot be resolved, [run_research] returns
    [None]; the only call that reached the platform is the attempt to
    resolve the name, so nothing was submitted or replied to, and neither the
    files nor the research records have changed. *)
Theorem unresolved_subreddit_aborts env self research_prompt subreddit_name research_id w :
  (forall t, is_ok (subreddit_title env t subreddit_name) = false) ->
  exists w' t,
    run_research env self research_prompt subreddit_name research_id w = (Ok None, w') /\
    calls w' = calls w ++ [(t, CallSubreddit subreddit_name)] /\
    filter (fun c => is_post c = true) (issued w') =
      filter (fun c => is_post c = true) (issued w) /\
    files w' = files w /\
    data w' = data w.
Proof.
  intros Hfail.
  unfold run_research, get_subreddit, _respect_rate_limit. unfold_monad.
  destruct research_id as [given|]; simpl.
  all: destruct (_ <? Config.rate_limit_delay); simpl.
  all: match goal with |- context [subreddit_title ?e ?t ?n] =>
         pose proof (Hfail t) as Ht;
         destruct (subreddit_title e t n) as [[]|?] end; try discriminate; simpl.
  all: eexists _, _; split; [reflexivity|]; simpl; unfold issued; simpl.
  all: rewrite map_app, filter_app; simpl; rewrite app_nil_r.
  all: repeat split; reflexivity.
Qed.

Lemma unresolved_subreddit_aborts_witness :
  exists w' t,
    run_research env_unresolvable (agent OpenAIVariant env_unresolvable)
      "topic" "smartphones" None (initial_world t0) = (Ok None, w') /\
    calls w' = calls (initial_world t0) ++ [(t, CallSubreddit "smartphones")] /\
    filter (fun c => is_post c = true) (issued w') =
      filter (fun c => is_post c = true) (issued (initial_world t0)) /\
    files w' = files (initial_world t0) /\
    data w' = data (initial_world t0).
Proof.
  apply (unresolved_subreddit_aborts env_unresolvable).
  intros t. reflexivity.
Defined.

(** The bound of six passes never cuts the loop short. *)
Lemma monitor_fuel_independent env self post_id post_content passes w :
  (max_passes <= passes)%nat ->
  monitor_loop env self passes post_id post_content (now w) w =
  monitor_loop env self max_passes post_id post_content (now w) w.
Proof.
  intros Hpasses. apply monitor_loop_fuel; [exact Hpasses|].
  unfold max_passes, Config.monitoring_duration, Config.check_interval. lia.
Qed.

(** ** C4: the reply-worthiness predicate *)

Lemma should_reply_exact score post_score :
  Z.abs post_score < 2 ^ 51 ->
  should_reply score post_score =
    Ok (bool_decide (Config.min_upvotes < score /\ post_score < 20 * score)).
Proof.
  intros Hrange. unfold should_reply, Config.min_upvotes.
  assert (H53 : Z.abs post_score < 2 ^ 53).
  { assert (2 ^ 51 < 2 ^ 53) by (apply Z.pow_lt_mono_r; lia). lia. }
  destruct (Z.ltb_spec 5 score) as [Hmin|Hmin].
  - rewrite (Float64Facts.of_int_exact post_score H53). f_equal.
    destruct (Z.lt_trichotomy post_score 0) as [Hneg|[->|Hpos]].
    + (* a negative product is below every positive score *)
      rewrite bool_decide_eq_true_2 by lia.
      unfold Float64.mul, Float64.round. simpl Float64.mant. simpl Float64.expo.
      destruct (Z.ltb_spec (post_score * 3602879701896397) 0); [|lia].
      destruct (Float64Facts.round_nonneg_spec (- (post_score * 3602879701896397)) (0 + -56))
        as (m & -> & Hm & _); [lia|].
      simpl. apply int_gt_nonpos; [lia|].
      assert (0 <= - (post_score * 3602879701896397) /
                     2 ^ Z.max 0 (Z.log2 (- (post_score * 3602879701896397)) + 1 - Float64.prec))
        by (apply Z.div_pos; [lia|apply Z.pow_pos_nonneg; lia]).
      lia.
    + rewrite bool_decide_eq_true_2 by lia. vm_compute.
      destruct score; try reflexivity; lia.
    + destruct (product_gt score post_score ltac:(lia)) as [Hto Hfrom].
      destruct (Float64.int_gt score _) eqn:Hgt.
      * rewrite bool_decide_eq_true_2; [reflexivity|]. split; [lia|]. apply Hto. reflexivity.
      * rewrite bool_decide_eq_false_2; [reflexivity|].
        intros [_ Hlt]. apply Hfrom in Hlt. congruence.
  - rewrite bool_decide_eq_false_2 by lia. reflexivity.
Qed.

(** C4. [should_reply] returns [True] exactly when the comment score [s]
    exceeds [min_upvotes] and exceeds the product [p * 0.05] of the post
    score with the threshold, for all scores: the product is the binary64
    product the program computes, compared exactly with the integer [s].
    For post scores of magnitude below 2^51 the same holds of the exact
    product: [should_reply] returns a boolean, [True] exactly when
    [s > min_upvotes] and [s > p * 0.05], and [False] at the boundary
    [s = p * 0.05].  The predicate is a function of the two scores alone:
    it reads and changes nothing else. *)
Theorem should_reply_iff score post_score :
  (forall product,
      Float64.of_int post_score = Ok product ->
      (should_reply score post_score = Ok true <->
         Config.min_upvotes < score /\
         Float64.int_gt score (Float64.mul product Config.upvote_ratio_threshold) = true)) /\
  (Z.abs post_score < 2 ^ 51 ->
   (should_reply score post_score = Ok true <->
      Config.min_upvotes < score /\ (exact_product post_score < inject_Z score)%Q) /\
   (should_reply score post_score = Ok true \/ should_reply score post_score = Ok false) /\
   ((inject_Z score == exact_product post_score)%Q ->
    should_reply score post_score = Ok false)) /\
  (forall w, lift (should_reply score post_score) w = (should_reply score post_score, w)).
Proof.
  split; [|split; [|reflexivity]].
  - intros product Hproduct. unfold should_reply. rewrite Hproduct.
    destruct (Z.ltb_spec Config.min_upvotes score) as [Hmin|Hmin].
    + split; [intros [= ->]; split; [exact Hmin|reflexivity] | intros [_ ->]; reflexivity].
    + split; [discriminate | intros [Hlt _]; lia].
  - intros Hrange. rewrite (should_reply_exact score post_score Hrange).
    assert (Hlt : (exact_product post_score < inject_Z score)%Q <-> post_score < 20 * score).
    { unfold exact_product, exact_threshold, Qlt. simpl. lia. }
    assert (Heq : (inject_Z score == exact_product post_score)%Q -> post_score = 20 * score).
    { unfold exact_product, exact_threshold, Qeq. simpl. lia. }
    split; [|split].
    + rewrite Hlt. split.
      * intros [= H]. apply bool_decide_eq_true in H. exact H.
      * intros H. rewrite bool_decide_eq_true_2 by exact H. reflexivity.
    + destruct (bool_decide _); [left|right]; reflexivity.
    + intros H. apply Heq in H. rewrite bool_decide_eq_false_2 by lia. reflexivity.
Qed.

Lemma should_reply_iff_witness :
  (should_reply 6 100 = Ok true <->
     Config.min_upvotes < 6 /\ (exact_product 100 < inject_Z 6)%Q) /\
  (should_reply 6 100 = Ok true \/ should_reply 6 100 = Ok false) /\
  ((inject_Z 6 == exact_product 100)%Q -> should_reply 6 100 = Ok false).
Proof.
  apply (should_reply_iff 6 100). vm_compute. reflexivity.
Defined.

Example should_reply_scenario_C : should_reply 6 100 = Ok true.
Proof. vm_compute. reflexivity. Qed.

Example should_reply_boundary : should_reply 7 140 = Ok false.
Proof. vm_compute. reflexivity. Qed.

Example should_reply_not_above_min : should_reply 5 0 = Ok false.
Proof. vm_compute. reflexivity. Qed.

(** Beyond the range of the theorem the binary64 product can reach the
    score: here 20 * score exceeds the post score by one. *)
Example should_reply_rounding :
  should_reply (2 ^ 52) (20 * 2 ^ 52 - 1) = Ok false.
Proof. vm_compute. reflexivity. Qed.

(** The model of the binary64 product agrees with the hardware. *)
Example model_product_agrees :
  forallb (fun n => same_double (model_product n) (hardware_product n))
    [0; 1; 3; 7; 19; 20; 21; 99; 100; 119; 120; 121; 139; 140; 141;
     12345678901; 2 ^ 51 - 1; 2 ^ 53 + 1; 20 * 2 ^ 52 - 1; 2 ^ 62 + 12345] = true.
Proof. vm_compute. reflexivity. Qed.

Example threshold_agrees :
  same_double Config.upvote_ratio_threshold 0x1.999999999999ap-5%float = true.
Proof. vm_compute. reflexivity. Qed.

(** ** C8: title and body of the submitted post *)

(** C8. The post submitted for a drafted text has as title the part of
    the text before its first line break and as body the part after it:
    the title holds no line break, and the text is the title alone when it
    has no line break and title, line break, body otherwise.  Nothing
    requires the title to be non-empty.  For the two-line text of scenario
    A the platform receives the title "Title Line" and the body
    "Body line". *)
Theorem submitted_title_and_body env subreddit post_content w :
  let title := before_first newline post_content in
  let body := after_first newline post_content in
  calls (snd (make_post env subreddit post_content w)) =
    calls w ++ [(now w, CallSubmit title body)] /\
  occurs newline title = false /\
  post_content = (if occurs newline post_content
                  then title +:+ String newline body
                  else title) /\
  (calls (snd (make_post env subreddit "" w)) = calls w ++ [(now w, CallSubmit "" "")]) /\
  (forall v,
      issued (snd (run_research env_ok (agent v env_ok) "topic" "smartphones" None
                     (initial_world t0))) =
        [CallSubreddit "smartphones"; CallHot "smartphones";
         CallSubmit "Title Line" "Body line"]).
Proof.
  intros title body. repeat split.
  - destruct (make_post_spec env subreddit post_content w) as [line ->]. reflexivity.
  - apply before_first_no_sep.
  - apply before_after_first.
  - destruct (make_post_spec env subreddit "" w) as [line ->]. reflexivity.
  - intros []; vm_compute; reflexivity.
Qed.

(** ** C1: a run whose submission succeeds *)

(** C1. On a platform that resolves the subreddit and accepts the
    submission, either variant submits the post, then fails in
    [update_post], which is called without its [research_id] argument:
    the handler of the submission block reports the error and [run_research]
    returns [None]; the record is in memory but no file is written. *)
Theorem accepted_submission_returns_none :
  forall v,
    let out := run_research env_ok (agent v env_ok) "topic" "smartphones" None
                 (initial_world t0) in
    fst out = Ok None /\
    issued (snd out) = [CallSubreddit "smartphones"; CallHot "smartphones";
                        CallSubmit "Title Line" "Body line"] /\
    stdout (snd out) =
      ["Error posting to Reddit: DataCollectionAgent.update_post() missing 1 required positional argument: 'post_data'"] /\
    ResearchData.post <$> (data (snd out) !! "research_1700000000") = Some (PDict []) /\
    files (snd out) = ∅.
Proof.
  intros []; vm_compute; repeat split.
Qed.

(** No run of either variant returns a research id or writes a file. *)
Lemma run_research_never_succeeds env v research_prompt subreddit_name research_id w :
  forall id, fst (run_research env (agent v env) research_prompt subreddit_name research_id w)
             <> Ok (Some id).
Proof.
  intros id.
  destruct (run_research_summary env v research_prompt subreddit_name research_id w)
    as (r & w' & -> & [->|[e ->]] & _); simpl; discriminate.
Qed.

(** ** C2: a pass that sees the post removed *)

(** C2. A pass whose refresh shows the [removed] attribute does not leave
    the loop: the removal branch calls [update_post] without its
    [research_id] argument, the [TypeError] reaches the handler of the pass,
    which logs it and sleeps for [check_interval]; the pass yields no
    [break], no record changes (so no status becomes "removed") and no file
    is written. *)
Theorem removal_does_not_stop_monitoring env self post_id post_content w view :
  post_refresh env (now w) post_id = Ok view ->
  has_removed view = true ->
  exists w',
    guarded_pass env self post_id post_content w = (Ok false, w') /\
    (forall key, post_status <$> (data w' !! key) = post_status <$> (data w !! key)) /\
    data w' = data w /\
    files w' = files w /\
    now w' = now w + Z.of_N (latency env (now w)) + Config.check_interval /\
    stdout w' = stdout w ++
      ["Post was removed by moderators";
       "Error monitoring responses: DataCollectionAgent.update_post() missing 1 required positional argument: 'post_data'"].
Proof.
  intros Hview Hremoved.
  unfold guarded_pass, monitoring_pass. unfold_monad.
  rewrite Hview. simpl. rewrite Hremoved. simpl.
  eexists. split; [reflexivity|]. simpl.
  rewrite <- app_assoc. repeat split.
Qed.

Lemma removal_does_not_stop_monitoring_witness :
  exists w',
    guarded_pass env_ok (agent OpenAIVariant env_ok) "p1" two_lines (initial_world t0)
      = (Ok false, w') /\
    (forall key, post_status <$> (data w' !! key) =
                 post_status <$> (data (initial_world t0) !! key)) /\
    data w' = data (initial_world t0) /\
    files w' = files (initial_world t0) /\
    now w' = now (initial_world t0)
             + Z.of_N (latency env_ok (now (initial_world t0))) + Config.check_interval /\
    stdout w' = stdout (initial_world t0) ++
      ["Post was removed by moderators";
       "Error monitoring responses: DataCollectionAgent.update_post() missing 1 required positional argument: 'post_data'"].
Proof.
  apply (removal_does_not_stop_monitoring env_ok (agent OpenAIVariant env_ok) "p1"
           two_lines (initial_world t0)
           {| has_removed := true; post_score := 100; post_comments := Ok [] |});
    reflexivity.
Defined.

(** ** C3: one reply per comment *)

(** As the program stands no run posts a reply at all, and no pass of the
    monitoring loop, started in any state, adds one: the comment loop stops
    at the one-argument [add_reply] of line 314, before the block of lines
    324-343 that answers a comment. *)
Lemma no_reply_in_a_run env v comment :
  (forall research_prompt subreddit_name research_id t,
      replies_to comment
        (snd (run_research env (agent v env) research_prompt subreddit_name research_id
                (initial_world t))) = 0%nat) /\
  (forall passes post_id post_content start_time w,
      replies_to comment
        (snd (monitor_loop env (agent v env) passes post_id post_content start_time w))
      = replies_to comment w).
Proof.
  split.
  - intros research_prompt subreddit_name research_id t.
    destruct (run_research_summary env v research_prompt subreddit_name research_id
                (initial_world t)) as (r & w' & -> & _ & _ & (extra & Hcalls & Hextra) & _).
    simpl. destruct (replies_unchanged comment _ _ _ Hcalls Hextra) as [-> _].
    reflexivity.
  - intros passes post_id post_content start_time w.
    destruct (monitor_loop_spec env (agent v env) passes post_id post_content start_time w)
      as (w' & -> & _ & _ & _ & _ & extra & Hcalls & Hextra).
    simpl. apply (replies_unchanged comment w w' extra Hcalls).
    apply polls_are_not_replies. exact Hextra.
Qed.






(** ** C5: the cap on replies *)

Section ReplyBlock.

Context (env : Environment) (v : Variant).

Lemma reply_below_cap_at_cap post_content comment w :
  (Config.max_replies_per_thread <= size (generated_replies w))%nat ->
  reply_below_cap env (agent v env) post_content comment w = (Ok tt, w).
Proof.
  intros Hcap. unfold reply_below_cap. unfold_monad.
  rewrite bool_decide_eq_false_2 by lia. reflexivity.
Qed.

(** The block posts at most one reply, only below the cap, and its second
    call of [add_reply] records nothing. *)
Lemma reply_below_cap_spec post_content comment w :
  let w' := snd (reply_below_cap env (agent v env) post_content comment w) in
  data w' = data w /\
  files w' = files w /\
  (replies_posted w' <= replies_posted w + 1)%nat /\
  (replies_posted w' <> replies_posted w ->
   (size (generated_replies w) < Config.max_replies_per_thread)%nat).
Proof.
  unfold reply_below_cap. unfold_monad.
  destruct (bool_decide (size (generated_replies w) < Config.max_replies_per_thread)%nat)
    eqn:Hbelow; simpl; [|repeat split; try lia; congruence].
  apply bool_decide_eq_true in Hbelow.
  destruct v; simpl; unfold OpenAI.generate_reply, Gemini.generate_reply,
    Gemini.generate_text; unfold_monad.
  all: match goal with |- context [llm ?e ?t ?p] =>
         destruct (llm e t p) as [text|err] end; simpl.
  all: try (unfold replies_posted, issued; simpl; repeat split; try lia; congruence).
  all: match goal with |- context [comment_reply ?e ?t ?c ?r] =>
         destruct (comment_reply e t c r) as [reply_id|err'] end; simpl.
  all: unfold replies_posted, issued; simpl; rewrite map_app, filter_app, length_app; simpl.
  all: repeat split; try lia.
Qed.

End ReplyBlock.

(** C5. In a run of either variant the bot posts at most
    [max_replies_per_thread] replies and no record holds more than that many
    bot-authored snapshots; the monitoring loop, started in any state, adds
    neither a reply nor a snapshot; and the block that drafts and posts a
    reply does nothing once [generated_replies] holds
    [max_replies_per_thread] ids, and posts at most one reply otherwise. *)
Theorem replies_never_exceed_cap env v :
  (forall research_prompt subreddit_name research_id t,
      let w' := snd (run_research env (agent v env) research_prompt subreddit_name
                       research_id (initial_world t)) in
      (replies_posted w' <= Config.max_replies_per_thread)%nat /\
      forall key record,
        data w' !! key = Some record ->
        (bot_snapshots record <= Config.max_replies_per_thread)%nat) /\
  (forall passes post_id post_content start_time w,
      let w' := snd (monitor_loop env (agent v env) passes post_id post_content
                       start_time w) in
      replies_posted w' = replies_posted w /\ data w' = data w) /\
  (forall post_content comment w,
      let w' := snd (reply_below_cap env (agent v env) post_content comment w) in
      ((Config.max_replies_per_thread <= size (generated_replies w))%nat -> w' = w) /\
      (replies_posted w' <= replies_posted w + 1)%nat /\
      (replies_posted w' <> replies_posted w ->
       (size (generated_replies w) < Config.max_replies_per_thread)%nat)).
Proof.
  split; [|split].
  - intros research_prompt subreddit_name research_id t.
    destruct (run_research_summary env v research_prompt subreddit_name research_id
                (initial_world t))
      as (r & w' & Hrun & _ & _ & (extra & Hcalls & Hextra) & Hdata).
    rewrite Hrun. simpl. split.
    + destruct (replies_unchanged "" _ _ _ Hcalls Hextra) as [_ ->].
      unfold replies_posted, issued. simpl. lia.
    + intros key record Hrecord.
      destruct (Hdata key record Hrecord) as [Hold|Hfresh].
      * simpl in Hold. rewrite lookup_empty in Hold. discriminate.
      * unfold bot_snapshots. rewrite Hfresh. simpl. lia.
  - intros passes post_id post_content start_time w.
    destruct (monitor_loop_spec env (agent v env) passes post_id post_content start_time w)
      as (w' & -> & Hdata & _ & _ & _ & extra & Hcalls & Hextra).
    simpl. split; [|exact Hdata].
    apply (replies_unchanged "" w w' extra Hcalls).
    apply polls_are_not_replies. exact Hextra.
  - intros post_content comment w. split; [|split].
    + intros Hcap. rewrite reply_below_cap_at_cap by exact Hcap. reflexivity.
    + apply reply_below_cap_spec.
    + apply reply_below_cap_spec.
Qed.

Lemma replies_never_exceed_cap_witness :
  snd (reply_below_cap env_ok (agent OpenAIVariant env_ok) two_lines
         {| comment_id := "c1"; comment_body := "a comment"; comment_score := 9;
            comment_created_utc := t0 |}
         (set_generated_replies {["r1"; "r2"; "r3"; "r4"]} (initial_world t0)))
  = set_generated_replies {["r1"; "r2"; "r3"; "r4"]} (initial_world t0).
Proof.
  apply (replies_never_exceed_cap env_ok OpenAIVariant).
  vm_compute. lia.
Defined.

(** ** C9: the rate limiter *)

(** What the limiter does achieve: the call that resolves the subreddit is
    issued at least [rate_limit_delay] after the time in [last_api_call]. *)
Lemma get_subreddit_respects_delay env subreddit_name w :
  exists t,
    calls (snd (get_subreddit env subreddit_name w)) =
      calls w ++ [(t, CallSubreddit subreddit_name)] /\
    last_api_call w + Config.rate_limit_delay <= t /\
    now w <= t /\
    last_api_call (snd (get_subreddit env subreddit_name w)) = t.
Proof.
  unfold get_subreddit, _respect_rate_limit. unfold_monad.
  destruct (Z.ltb_spec (now w - last_api_call w) Config.rate_limit_delay); simpl.
  - destruct (subreddit_title env _ _); simpl; eexists; (split; [reflexivity|]); lia.
  - destruct (subreddit_title env _ _); simpl; eexists; (split; [reflexivity|]); lia.
Qed.

(** C9. Only the call that resolves the subreddit passes through the
    limiter.  With every call taking one second, the run issues the
    listing of hot posts one second after the resolution and the submission
    three seconds later: the calls are not [rate_limit_delay] apart. *)
Theorem platform_calls_are_not_spaced :
  forall v,
    let out := run_research env_ok (agent v env_ok) "topic" "smartphones" None
                 (initial_world t0) in
    calls (snd out) =
      [(t0, CallSubreddit "smartphones");
       (t0 + 1, CallHot "smartphones");
       (t0 + 4, CallSubmit "Title Line" "Body line")] /\
    last_api_call (snd out) = t0 /\
    spaced Config.rate_limit_delay (calls (snd out)) = false.
Proof.
  intros []; vm_compute; repeat split.
Qed.

(** ** C7: a failing LLM call *)




(** ** C10: the two variants *)


Section SameAnswers.

Context (env : Environment) (answer : Z -> string).
Hypothesis llm_answers : forall t prompt, llm env t prompt = Ok (answer t).


End SameAnswers.



(** * Further properties *)

(** ** [DataCollectionAgent], called with all its arguments *)

Lemma data_lookup_found research_id record w :
  data w !! research_id = Some record ->
  data_lookup (PStr research_id) w = (Ok (research_id, record), w).
Proof. intros H. unfold data_lookup. unfold_monad. rewrite H. reflexivity. Qed.

Lemma data_lookup_missing research_id w :
  data w !! research_id = None ->
  data_lookup (PStr research_id) w = (Raise (KeyError research_id), w).
Proof. intros H. unfold data_lookup. unfold_monad. rewrite H. reflexivity. Qed.

Lemma with_replies_same record :
  ResearchData.with_replies (replies (ResearchData.interactions record)) record = record.
Proof. destruct record as [? ? ? ? ? []]. reflexivity. Qed.

Lemma add_reply_found research_id record reply w :
  data w !! research_id = Some record ->
  add_reply [PStr research_id; reply] w =
    (Ok tt,
     set_data
       (<[research_id :=
            ResearchData.with_replies
              (replies (ResearchData.interactions record) ++ [reply]) record]>
          (data w)) w).
Proof.
  intros H. unfold add_reply. unfold mbind, M_bind, bind.
  rewrite (data_lookup_found _ _ _ H). reflexivity.
Qed.

Lemma update_post_found research_id record post_data w :
  data w !! research_id = Some record ->
  update_post [PStr research_id; post_data] w =
    (Ok tt,
     set_data (<[research_id := ResearchData.with_post post_data record]> (data w)) w).
Proof.
  intros H. unfold update_post. unfold mbind, M_bind, bind.
  rewrite (data_lookup_found _ _ _ H). reflexivity.
Qed.

(** Replies added one after the other are appended in that order; nothing
    else changes. *)
Lemma add_replies_spec research_id new_replies :
  forall record w,
    data w !! research_id = Some record ->
    for_each new_replies (fun reply => add_reply [PStr research_id; reply]) w =
      (Ok tt,
       set_data
         (<[research_id :=
              ResearchData.with_replies
                (replies (ResearchData.interactions record) ++ new_replies) record]>
            (data w)) w).
Proof.
  induction new_replies as [|reply rest IH]; intros record w Hrecord.
  - simpl. unfold_monad. rewrite app_nil_r, with_replies_same.
    rewrite insert_id by exact Hrecord. destruct w; reflexivity.
  - cbn [for_each]. unfold mbind, M_bind, bind.
    rewrite (add_reply_found _ _ _ _ Hrecord).
    rewrite (IH (ResearchData.with_replies
                   (replies (ResearchData.interactions record) ++ [reply]) record))
      by (simpl; apply lookup_insert_eq).
    simpl. rewrite insert_insert_eq, <- app_assoc. reflexivity.
Qed.

(** [save_research] when nothing fails: the file is opened, the record is
    found and serialised, and the text is written. *)
Lemma save_research_found env research_id record text filepath w :
  data w !! research_id = Some record ->
  file_open env (now w) filepath = Ok tt ->
  to_json env record = Ok text ->
  file_write env (now w) filepath text = Written ->
  save_research env [PStr research_id; PStr filepath] w =
    (Ok tt, set_files (<[filepath := text]> (files w)) w).
Proof.
  intros Hrecord Hopen Hjson Hwrite.
  unfold save_research, open_for_writing, write_file, data_lookup. unfold_monad.
  rewrite Hopen. simpl. rewrite Hrecord, Hjson. simpl. rewrite Hwrite. simpl.
  rewrite insert_insert_eq. reflexivity.
Qed.

(** X1. Used with all their arguments, the methods of
    [DataCollectionAgent] compose as a record's life: after
    [initialize_research], [update_post], any number of [add_reply] and
    [save_research], the record of that id holds the given post and the
    replies in the order they were added and no other record has changed;
    when the path can be opened for writing, [to_json] serialises that
    record to [text] and the write goes through, the file holds exactly
    [text] and no other file has changed.  A record that existed under the
    id before is replaced. *)
Theorem record_lifecycle env research_id prompt subreddit style_template
    post_data new_replies filepath text w :
  let record :=
    ResearchData.with_replies new_replies
      (ResearchData.with_post post_data
         (new_record research_id prompt subreddit style_template)) in
  file_open env (now w) filepath = Ok tt ->
  to_json env record = Ok text ->
  file_write env (now w) filepath text = Written ->
  exists w',
    (initialize_research
       [PStr research_id; PStr prompt; PStr subreddit; PStr style_template];;
     update_post [PStr research_id; post_data];;
     for_each new_replies (fun reply => add_reply [PStr research_id; reply]);;
     save_research env [PStr research_id; PStr filepath]) w = (Ok tt, w') /\
    data w' !! research_id = Some record /\
    files w' !! filepath = Some text /\
    (forall other, other <> research_id -> data w' !! other = data w !! other) /\
    (forall other, other <> filepath -> files w' !! other = files w !! other).
Proof.
  intros record Hopen Hjson Hwrite.
  unfold mbind, M_bind, bind.
  unfold initialize_research, modify.
  set (w1 := set_data _ w).
  assert (H1 : data w1 !! research_id =
               Some (new_record research_id prompt subreddit style_template))
    by apply lookup_insert_eq.
  rewrite (update_post_found _ _ post_data _ H1).
  set (w2 := set_data _ w1).
  assert (H2 : data w2 !! research_id =
               Some (ResearchData.with_post post_data
                       (new_record research_id prompt subreddit style_template)))
    by apply lookup_insert_eq.
  rewrite (add_replies_spec research_id new_replies _ _ H2).
  set (w3 := set_data _ w2).
  assert (H3 : data w3 !! research_id = Some record) by apply lookup_insert_eq.
  rewrite (save_research_found env research_id record text filepath w3 H3 Hopen Hjson Hwrite).
  eexists. split; [reflexivity|]. simpl.
  split; [exact H3|]. split; [apply lookup_insert_eq|]. split.
  - intros other Hother. rewrite !lookup_insert_ne by congruence. reflexivity.
  - intros other Hother. rewrite !lookup_insert_ne by congruence. reflexivity.
Qed.

Lemma record_lifecycle_witness :
  exists w',
    (initialize_research [PStr "r1"; PStr "topic"; PStr "smartphones"; PStr "style"];;
     update_post [PStr "r1"; PDict [("id", PStr "p1")]];;
     for_each [PStr "first"; PStr "second"] (fun reply => add_reply [PStr "r1"; reply]);;
     save_research env_ok [PStr "r1"; PStr "research_data_r1.json"]) (initial_world t0)
    = (Ok tt, w') /\
    data w' !! "r1" =
      Some (ResearchData.with_replies [PStr "first"; PStr "second"]
              (ResearchData.with_post (PDict [("id", PStr "p1")])
                 (new_record "r1" "topic" "smartphones" "style"))) /\
    files w' !! "research_data_r1.json" = Some "r1" /\
    (forall other, other <> "r1" -> data w' !! other = data (initial_world t0) !! other) /\
    (forall other, other <> "research_data_r1.json" ->
                   files w' !! other = files (initial_world t0) !! other).
Proof.
  apply (record_lifecycle env_ok "r1" "topic" "smartphones" "style"
           (PDict [("id", PStr "p1")]) [PStr "first"; PStr "second"]
           "research_data_r1.json" "r1" (initial_world t0));
    reflexivity.
Defined.

(** X2. [update_post] replaces the post of a record and merges nothing: of
    two updates only the second is kept, whatever keys the first one set;
    the replies of the record are untouched, and [update_post] and
    [add_reply] on the same record can be exchanged. *)
Theorem update_post_replaces research_id record first second reply w :
  data w !! research_id = Some record ->
  (update_post [PStr research_id; first];; update_post [PStr research_id; second]) w =
    update_post [PStr research_id; second] w /\
  (update_post [PStr research_id; first];; add_reply [PStr research_id; reply]) w =
    (add_reply [PStr research_id; reply];; update_post [PStr research_id; first]) w /\
  exists w',
    update_post [PStr research_id; second] w = (Ok tt, w') /\
    (ResearchData.post <$> data w' !! research_id) = Some second /\
    (ResearchData.interactions <$> data w' !! research_id) =
      Some (ResearchData.interactions record) /\
    (forall other, other <> research_id -> data w' !! other = data w !! other).
Proof.
  intros Hrecord. unfold mbind, M_bind, bind.
  rewrite !(update_post_found _ _ _ _ Hrecord), (add_reply_found _ _ _ _ Hrecord).
  rewrite (update_post_found research_id (ResearchData.with_post first record) second)
    by apply lookup_insert_eq.
  rewrite (add_reply_found research_id (ResearchData.with_post first record) reply)
    by apply lookup_insert_eq.
  rewrite (update_post_found research_id
             (ResearchData.with_replies
                (replies (ResearchData.interactions record) ++ [reply]) record) first)
    by apply lookup_insert_eq.
  simpl. rewrite !insert_insert_eq. repeat split.
  eexists. split; [reflexivity|]. simpl. rewrite lookup_insert_eq. repeat split.
  intros other Hother. apply lookup_insert_ne. congruence.
Qed.

Lemma update_post_replaces_witness :
  (update_post [PStr "r1"; PDict [("id", PStr "p1"); ("status", PStr "active")]];;
   update_post [PStr "r1"; PDict [("status", PStr "removed")]]) world_with_record =
  update_post [PStr "r1"; PDict [("status", PStr "removed")]] world_with_record.
Proof.
  apply (update_post_replaces "r1" (new_record "r1" "topic" "smartphones" "style")
           (PDict [("id", PStr "p1"); ("status", PStr "active")])
           (PDict [("status", PStr "removed")]) PNone world_with_record).
  reflexivity.
Defined.

(** X3. For an id without a record [update_post] and [add_reply] raise
    [KeyError] and leave the state as it was. *)
Theorem unknown_record_is_an_error research_id value w :
  data w !! research_id = None ->
  update_post [PStr research_id; value] w = (Raise (KeyError research_id), w) /\
  add_reply [PStr research_id; value] w = (Raise (KeyError research_id), w).
Proof.
  intros Hmissing. unfold update_post, add_reply. unfold mbind, M_bind, bind.
  rewrite (data_lookup_missing _ _ Hmissing). split; reflexivity.
Qed.

Lemma unknown_record_is_an_error_witness :
  update_post [PStr "r1"; PDict []] (initial_world t0) =
    (Raise (KeyError "r1"), initial_world t0) /\
  add_reply [PStr "r1"; PDict []] (initial_world t0) =
    (Raise (KeyError "r1"), initial_world t0).
Proof.
  apply (unknown_record_is_an_error "r1" (PDict []) (initial_world t0)).
  reflexivity.
Defined.

(** X4. When the path can be opened for writing, [to_json] serialises the
    record to [text] and the write goes through, [save_research] leaves
    exactly [text] in the file, changes no record and no other file, and
    saving again leaves the state as it is. *)
Theorem save_research_idempotent env research_id record text filepath w :
  data w !! research_id = Some record ->
  file_open env (now w) filepath = Ok tt ->
  to_json env record = Ok text ->
  file_write env (now w) filepath text = Written ->
  exists w',
    save_research env [PStr research_id; PStr filepath] w = (Ok tt, w') /\
    files w' !! filepath = Some text /\
    (forall other, other <> filepath -> files w' !! other = files w !! other) /\
    data w' = data w /\
    save_research env [PStr research_id; PStr filepath] w' = (Ok tt, w').
Proof.
  intros Hrecord Hopen Hjson Hwrite.
  exists (set_files (<[filepath := text]> (files w)) w).
  split; [apply (save_research_found env research_id record); assumption|].
  split; [apply lookup_insert_eq|]. split; [|split; [reflexivity|]].
  - intros other Hother. apply lookup_insert_ne. congruence.
  - rewrite (save_research_found env research_id record text) by assumption.
    simpl. rewrite insert_insert_eq. reflexivity.
Qed.

Lemma save_research_idempotent_witness :
  exists w',
    save_research env_ok [PStr "r1"; PStr "research_data_r1.json"] world_with_record
      = (Ok tt, w') /\
    files w' !! "research_data_r1.json" = Some "r1" /\
    (forall other, other <> "research_data_r1.json" ->
                   files w' !! other = files world_with_record !! other) /\
    data w' = data world_with_record /\
    save_research env_ok [PStr "r1"; PStr "research_data_r1.json"] w' = (Ok tt, w').
Proof.
  apply (save_research_idempotent env_ok "r1"
           (new_record "r1" "topic" "smartphones" "style") "r1"
           "research_data_r1.json" world_with_record);
    reflexivity.
Defined.

(** X5. [save_research] opens the file for writing before it looks the
    record up and before it serialises it.  When the path cannot be opened
    the error of [open] escapes and nothing has changed, no file is created.
    When the path can be opened, a failure that follows leaves the file
    behind: for an id without a record [KeyError] escapes and the file is
    empty, whatever it held; when [to_json] rejects the record its error
    escapes and the file is empty; when the write fails its error escapes
    and the file holds what had been written by then.  No record and no other
    file changes in any of these. *)
Theorem save_research_truncates env research_id filepath w :
  (forall e,
      file_open env (now w) filepath = Raise e ->
      save_research env [PStr research_id; PStr filepath] w = (Raise e, w)) /\
  (file_open env (now w) filepath = Ok tt ->
   data w !! research_id = None ->
   exists w',
     save_research env [PStr research_id; PStr filepath] w =
       (Raise (KeyError research_id), w') /\
     files w' !! filepath = Some "" /\
     (forall other, other <> filepath -> files w' !! other = files w !! other) /\
     data w' = data w) /\
  (forall record e,
      file_open env (now w) filepath = Ok tt ->
      data w !! research_id = Some record ->
      to_json env record = Raise e ->
      exists w',
        save_research env [PStr research_id; PStr filepath] w = (Raise e, w') /\
        files w' !! filepath = Some "" /\
        (forall other, other <> filepath -> files w' !! other = files w !! other) /\
        data w' = data w) /\
  (forall record text e remains,
      file_open env (now w) filepath = Ok tt ->
      data w !! research_id = Some record ->
      to_json env record = Ok text ->
      file_write env (now w) filepath text = WriteFailed e remains ->
      exists w',
        save_research env [PStr research_id; PStr filepath] w = (Raise e, w') /\
        files w' !! filepath = Some remains /\
        (forall other, other <> filepath -> files w' !! other = files w !! other) /\
        data w' = data w).
Proof.
  unfold save_research, open_for_writing, write_file, data_lookup.
  split; [|split; [|split]].
  - intros e Hopen. unfold_monad. rewrite Hopen. reflexivity.
  - intros Hopen Hmissing. unfold_monad. rewrite Hopen. simpl. rewrite Hmissing.
    eexists. split; [reflexivity|]. simpl.
    split; [apply lookup_insert_eq|]. split; [|reflexivity].
    intros other Hother. apply lookup_insert_ne. congruence.
  - intros record e Hopen Hrecord Hjson. unfold_monad. rewrite Hopen. simpl.
    rewrite Hrecord, Hjson.
    eexists. split; [reflexivity|]. simpl.
    split; [apply lookup_insert_eq|]. split; [|reflexivity].
    intros other Hother. apply lookup_insert_ne. congruence.
  - intros record text e remains Hopen Hrecord Hjson Hwrite.
    unfold_monad. rewrite Hopen. simpl. rewrite Hrecord, Hjson. simpl. rewrite Hwrite.
    simpl. eexists. split; [reflexivity|]. simpl.
    split; [apply lookup_insert_eq|]. split; [|reflexivity].
    intros other Hother. rewrite !lookup_insert_ne by congruence. reflexivity.
Qed.

Lemma save_research_truncates_witness :
  exists w',
    save_research env_ok [PStr "r2"; PStr "research_data_r2.json"] world_with_record =
      (Raise (KeyError "r2"), w') /\
    files w' !! "research_data_r2.json" = Some "" /\
    (forall other, other <> "research_data_r2.json" ->
                   files w' !! other = files world_with_record !! other) /\
    data w' = data world_with_record.
Proof.
  apply (proj1 (proj2 (save_research_truncates env_ok "r2" "research_data_r2.json"
                         world_with_record)));
    reflexivity.
Defined.

(** ** [RedditAPI] *)

Lemma respect_rate_limit_spec w :
  _respect_rate_limit w =
    (Ok tt, set_last_api_call (earliest_call w) (set_now (earliest_call w) w)).
Proof.
  unfold _respect_rate_limit, earliest_call. unfold_monad.
  destruct (Z.ltb_spec (now w - last_api_call w) Config.rate_limit_delay) as [Hlt|Hge];
    simpl.
  - replace (now w + Z.max 0 (Config.rate_limit_delay - (now w - last_api_call w)))
      with (Z.max (now w) (last_api_call w + Config.rate_limit_delay)) by lia.
    reflexivity.
  - replace (Z.max (now w) (last_api_call w + Config.rate_limit_delay))
      with (now w) by lia.
    reflexivity.
Qed.

Lemma get_subreddit_spec env subreddit_name w :
  let t := earliest_call w in
  let w1 := set_now (t + Z.of_N (latency env t))
              (set_calls (calls w ++ [(t, CallSubreddit subreddit_name)])
                 (set_last_api_call t w)) in
  get_subreddit env subreddit_name w =
    match subreddit_title env t subreddit_name with
    | Ok _ => (Ok (Some subreddit_name), w1)
    | Raise e =>
        (Ok None,
         set_stdout (stdout w ++ ["Error accessing subreddit: " +:+ exn_str e]) w1)
    end.
Proof.
  unfold get_subreddit. unfold mbind at 1. unfold M_bind, bind.
  rewrite respect_rate_limit_spec. unfold_monad. simpl.
  destruct (subreddit_title env (earliest_call w) subreddit_name) as [[]|e]; reflexivity.
Qed.

(** X6. The rate limiter lets time pass until [rate_limit_delay] has gone
    by since [last_api_call] and no longer: it does not wait at all when
    that much time has passed already, it never waits longer than the delay
    when the last call lies in the past, and it records the time at which it
    returns as the new [last_api_call]. *)
Theorem rate_limiter_waits_as_needed w :
  exists w',
    _respect_rate_limit w = (Ok tt, w') /\
    last_api_call w' = now w' /\
    last_api_call w + Config.rate_limit_delay <= now w' /\
    now w <= now w' /\
    (last_api_call w + Config.rate_limit_delay <= now w -> now w' = now w) /\
    (last_api_call w <= now w -> now w' - now w <= Config.rate_limit_delay) /\
    data w' = data w /\ calls w' = calls w /\ files w' = files w /\ stdout w' = stdout w.
Proof.
  rewrite respect_rate_limit_spec. eexists. split; [reflexivity|].
  unfold earliest_call, Config.rate_limit_delay. simpl. repeat split; lia.
Qed.

(** X7. Two resolutions of a subreddit in a row reach the platform at
    least [rate_limit_delay] apart, whatever the platform answers and
    however long the first call takes. *)
Theorem subreddit_lookups_are_spaced env first second w :
  exists t1 t2 found w',
    (get_subreddit env first;; get_subreddit env second) w = (Ok found, w') /\
    calls w' = calls w ++ [(t1, CallSubreddit first); (t2, CallSubreddit second)] /\
    last_api_call w + Config.rate_limit_delay <= t1 /\
    t1 + Config.rate_limit_delay <= t2 /\
    last_api_call w' = t2.
Proof.
  unfold mbind, M_bind, bind.
  rewrite (get_subreddit_spec env first w). cbv zeta.
  destruct (subreddit_title env (earliest_call w) first) as [[]|e1].
  all: rewrite get_subreddit_spec; cbv zeta.
  all: match goal with |- context [subreddit_title ?e ?t ?n] =>
         destruct (subreddit_title e t n) as [[]|e2] end.
  all: eexists _, _, _, _; split; [reflexivity|]; simpl.
  all: rewrite <- app_assoc; simpl.
  all: unfold earliest_call, Config.rate_limit_delay; simpl.
  all: repeat split; lia.
Qed.

(** X8. [get_subreddit] never raises.  It makes one call to the platform,
    at the time the rate limiter allows; it returns the subreddit when the
    platform answers and [None] when the platform fails, and only then
    prints a line, which carries the message of the error. *)
Theorem get_subreddit_catches_errors env subreddit_name w :
  exists found w',
    get_subreddit env subreddit_name w = (Ok found, w') /\
    calls w' = calls w ++ [(earliest_call w, CallSubreddit subreddit_name)] /\
    data w' = data w /\ files w' = files w /\
    match subreddit_title env (earliest_call w) subreddit_name with
    | Ok _ => found = Some subreddit_name /\ stdout w' = stdout w
    | Raise e =>
        found = None /\
        stdout w' = stdout w ++ ["Error accessing subreddit: " +:+ exn_str e]
    end.
Proof.
  rewrite get_subreddit_spec. cbv zeta.
  destruct (subreddit_title env (earliest_call w) subreddit_name) as [[]|e];
    eexists _, _; (split; [reflexivity|]); simpl; repeat split.
Qed.

(** ** [analyze_subreddit] and the record of a run *)

(** X9. An error of the listing of hot posts is not caught anywhere: in
    both variants it ends [run_research] as that exception, after the
    subreddit was resolved and the listing requested, before any LLM call;
    no record is created, nothing is printed, posted or written. *)
Theorem hot_listing_error_escapes env v e research_prompt subreddit_name research_id w :
  (forall t, subreddit_title env t subreddit_name = Ok tt) ->
  (forall t, subreddit_hot env t subreddit_name = Raise e) ->
  exists w',
    run_research env (agent v env) research_prompt subreddit_name research_id w =
      (Raise e, w') /\
    issued w' = issued w ++ [CallSubreddit subreddit_name; CallHot subreddit_name] /\
    data w' = data w /\ files w' = files w /\ stdout w' = stdout w /\
    now w' = earliest_call w + Z.of_N (latency env (earliest_call w))
             + Z.of_N (latency env (earliest_call w + Z.of_N (latency env (earliest_call w)))).
Proof.
  intros Htitle Hhot.
  unfold run_research. unfold mbind, M_bind, bind.
  destruct research_id as [given|]; unfold ret, get_time.
  all: rewrite get_subreddit_spec; cbv zeta; rewrite Htitle.
  all: destruct v; simpl; unfold OpenAI.analyze_subreddit, Gemini.analyze_subreddit;
    unfold_monad; simpl; rewrite Hhot; simpl.
  all: eexists; split; [reflexivity|]; simpl; unfold issued; simpl.
  all: rewrite <- app_assoc, map_app; simpl; repeat split.
Qed.

Lemma hot_listing_error_escapes_witness :
  exists w',
    run_research env_hot_down (agent GeminiVariant env_hot_down) "topic" "smartphones"
      None (initial_world t0) =
      (Raise (ExternalError "received 403 HTTP response"), w') /\
    issued w' = issued (initial_world t0)
                ++ [CallSubreddit "smartphones"; CallHot "smartphones"] /\
    data w' = data (initial_world t0) /\ files w' = files (initial_world t0) /\
    stdout w' = stdout (initial_world t0) /\
    now w' = earliest_call (initial_world t0)
             + Z.of_N (latency env_hot_down (earliest_call (initial_world t0)))
             + Z.of_N (latency env_hot_down
                         (earliest_call (initial_world t0)
                          + Z.of_N (latency env_hot_down (earliest_call (initial_world t0))))).
Proof.
  apply (hot_listing_error_escapes env_hot_down GeminiVariant
           (ExternalError "received 403 HTTP response"));
    intros t; reflexivity.
Defined.

(** X10. A run of either variant in which the subreddit resolves, the hot
    listing delivers [posts], the LLM answers the style prompt built from
    these posts with [style_guide] and the post prompt built from
    [style_guide] and the research prompt with [post_content]: the run stores
    one record, under the given id or under "research_" followed by the start
    time, with the prompt, the subreddit name and [style_guide]; it submits
    [post_content], the text before its first line break as title and the
    text after it as body, as its third and last platform call; the run then
    returns [None] and the record keeps an empty post and no replies: it
    never learns the id of the submitted post.  Every other record is
    untouched, one line is printed and no file is written. *)
Theorem record_of_a_run env v research_prompt subreddit_name research_id
    posts style_guide post_content w :
  let t_resolve := earliest_call w in
  let t_hot := t_resolve + Z.of_N (latency env t_resolve) in
  let t_style := t_hot + Z.of_N (latency env t_hot) in
  let t_draft := t_style + Z.of_N (latency env t_style) in
  let t_submit := t_draft + Z.of_N (latency env t_draft) in
  let key := default ("research_" +:+ pretty (now w)) research_id in
  subreddit_title env t_resolve subreddit_name = Ok tt ->
  subreddit_hot env t_hot subreddit_name = Ok posts ->
  llm env t_style
    (style_prompt (prompt_indent v) (json_dumps env (collect_posts posts)))
  = Ok style_guide ->
  llm env t_draft (post_prompt (prompt_indent v) style_guide research_prompt)
  = Ok post_content ->
  exists w' line,
    run_research env (agent v env) research_prompt subreddit_name research_id w =
      (Ok None, w') /\
    data w' !! key =
      Some (new_record key research_prompt subreddit_name style_guide) /\
    (forall other, other <> key -> data w' !! other = data w !! other) /\
    calls w' = calls w ++
      [(t_resolve, CallSubreddit subreddit_name);
       (t_hot, CallHot subreddit_name);
       (t_submit, CallSubmit (before_first newline post_content)
                             (after_first newline post_content))] /\
    stdout w' = stdout w ++ [line] /\
    files w' = files w.
Proof.
  intros t_resolve t_hot t_style t_draft t_submit key Htitle Hhot Hstyle Hdraft.
  unfold key, t_submit, t_draft, t_style, t_hot, t_resolve in *.
  unfold run_research. unfold mbind, M_bind, bind.
  destruct research_id as [given|]; unfold ret, get_time.
  all: rewrite get_subreddit_spec; cbv zeta; rewrite Htitle.
  all: destruct v; simpl in *; unfold OpenAI.analyze_subreddit, OpenAI.generate_post,
         Gemini.analyze_subreddit, Gemini.generate_post, Gemini.generate_text,
         initialize_research; unfold_monad; simpl.
  all: rewrite Hhot; simpl; rewrite Hstyle; simpl; rewrite Hdraft; simpl.
  all: match goal with
       | |- context [make_post ?e ?s ?c ?u] =>
           destruct (make_post_spec e s c u) as [line ->]
       end.
  all: eexists _, line; split; [reflexivity|]; simpl.
  all: rewrite lookup_insert_eq.
  all: rewrite <- !app_assoc; simpl.
  all: repeat split.
  all: intros other Hother; apply lookup_insert_ne; congruence.
Qed.

Lemma record_of_a_run_witness :
  exists w' line,
    run_research env_ok (agent OpenAIVariant env_ok) "topic" "smartphones" (Some "r1")
      (initial_world t0) = (Ok None, w') /\
    data w' !! "r1" = Some (new_record "r1" "topic" "smartphones" two_lines) /\
    (forall other, other <> "r1" -> data w' !! other = data (initial_world t0) !! other) /\
    calls w' = calls (initial_world t0) ++
      [(t0, CallSubreddit "smartphones");
       (t0 + 1, CallHot "smartphones");
       (t0 + 4, CallSubmit "Title Line" "Body line")] /\
    stdout w' = stdout (initial_world t0) ++ [line] /\
    files w' = files (initial_world t0).
Proof.
  apply (record_of_a_run env_ok OpenAIVariant "topic" "smartphones" (Some "r1")
           [] two_lines two_lines (initial_world t0));
    reflexivity.
Defined.


(** ** The reply block and the comment loop *)

Section ReplyBlockFacts.

Context (env : Environment) (v : Variant).

(** X11. When the cap is not reached, the LLM answers and the platform
    accepts the reply, the reply block posts the drafted text under the
    comment and adds the id of the reply to [generated_replies]; the
    snapshot of the reply is not recorded, because [add_reply] is called
    without its [research_id], and the block reports the posted reply as
    "Error posting reply".  The block itself ends normally. *)
Theorem posted_reply_is_not_recorded text reply_id post_content comment w :
  (size (generated_replies w) < Config.max_replies_per_thread)%nat ->
  (forall t prompt, llm env t prompt = Ok text) ->
  (forall t target body, comment_reply env t target body = Ok reply_id) ->
  exists w',
    reply_below_cap env (agent v env) post_content comment w = (Ok tt, w') /\
    issued w' = issued w ++ [CallReply (comment_id comment) text] /\
    generated_replies w' = {[reply_id]} ∪ generated_replies w /\
    data w' = data w /\
    stdout w' = stdout w ++
      ["Error posting reply: DataCollectionAgent.add_reply() missing 1 required positional argument: 'reply_data'"].
Proof.
  intros Hbelow Hllm Hreply. unfold reply_below_cap. unfold_monad.
  rewrite bool_decide_eq_true_2 by exact Hbelow.
  destruct v; simpl; unfold OpenAI.generate_reply, Gemini.generate_reply,
    Gemini.generate_text; unfold_monad; rewrite Hllm; simpl; rewrite Hreply; simpl.
  all: eexists; split; [reflexivity|]; unfold issued; simpl.
  all: rewrite map_app; repeat split.
Qed.

(** X12. When the platform rejects the reply, the block logs the error of
    the platform and ends normally; the id set, the records and the files
    are as before, so the loop goes on with the next comment. *)
Theorem rejected_reply_is_skipped e text post_content comment w :
  (size (generated_replies w) < Config.max_replies_per_thread)%nat ->
  (forall t prompt, llm env t prompt = Ok text) ->
  (forall t target body, comment_reply env t target body = Raise e) ->
  exists w',
    reply_below_cap env (agent v env) post_content comment w = (Ok tt, w') /\
    issued w' = issued w ++ [CallReply (comment_id comment) text] /\
    generated_replies w' = generated_replies w /\
    data w' = data w /\ files w' = files w /\
    stdout w' = stdout w ++ ["Error posting reply: " +:+ exn_str e].
Proof.
  intros Hbelow Hllm Hreply. unfold reply_below_cap. unfold_monad.
  rewrite bool_decide_eq_true_2 by exact Hbelow.
  destruct v; simpl; unfold OpenAI.generate_reply, Gemini.generate_reply,
    Gemini.generate_text; unfold_monad; rewrite Hllm; simpl; rewrite Hreply; simpl.
  all: eexists; split; [reflexivity|]; unfold issued; simpl.
  all: rewrite map_app; repeat split.
Qed.

End ReplyBlockFacts.

Lemma posted_reply_is_not_recorded_witness :
  exists w',
    reply_below_cap env_ok (agent GeminiVariant env_ok) two_lines sample_comment
      (initial_world t0) = (Ok tt, w') /\
    issued w' = issued (initial_world t0) ++ [CallReply (comment_id sample_comment) two_lines] /\
    generated_replies w' = {["r1"]} ∪ generated_replies (initial_world t0) /\
    data w' = data (initial_world t0) /\
    stdout w' = stdout (initial_world t0) ++
      ["Error posting reply: DataCollectionAgent.add_reply() missing 1 required positional argument: 'reply_data'"].
Proof.
  apply (posted_reply_is_not_recorded env_ok GeminiVariant two_lines "r1").
  - vm_compute. lia.
  - intros t prompt. reflexivity.
  - intros t target body. reflexivity.
Defined.

Lemma rejected_reply_is_skipped_witness :
  exists w',
    reply_below_cap env_reply_down (agent OpenAIVariant env_reply_down) two_lines
      sample_comment (initial_world t0) = (Ok tt, w') /\
    issued w' = issued (initial_world t0) ++ [CallReply (comment_id sample_comment) two_lines] /\
    generated_replies w' = generated_replies (initial_world t0) /\
    data w' = data (initial_world t0) /\ files w' = files (initial_world t0) /\
    stdout w' = stdout (initial_world t0) ++
      ["Error posting reply: " +:+ exn_str (ExternalError "RATELIMIT")].
Proof.
  apply (rejected_reply_is_skipped env_reply_down OpenAIVariant
           (ExternalError "RATELIMIT") two_lines).
  - vm_compute. lia.
  - intros t prompt. reflexivity.
  - intros t target body. reflexivity.
Defined.

(** X13. When the LLM fails while a reply is drafted, the OpenAI variant
    leaves the reply block with that exception before anything is posted,
    and the Gemini variant posts a reply with an empty text. *)
Theorem failed_draft_of_a_reply env e post_content comment w :
  (size (generated_replies w) < Config.max_replies_per_thread)%nat ->
  (forall t prompt, llm env t prompt = Raise e) ->
  (exists w',
      reply_below_cap env (agent OpenAIVariant env) post_content comment w = (Raise e, w') /\
      issued w' = issued w /\ generated_replies w' = generated_replies w /\
      stdout w' = stdout w) /\
  (exists w',
      reply_below_cap env (agent GeminiVariant env) post_content comment w = (Ok tt, w') /\
      issued w' = issued w ++ [CallReply (comment_id comment) ""]).
Proof.
  intros Hbelow Hllm. unfold reply_below_cap. unfold_monad.
  rewrite bool_decide_eq_true_2 by exact Hbelow. simpl.
  unfold OpenAI.generate_reply, Gemini.generate_reply, Gemini.generate_text.
  unfold_monad. rewrite !Hllm. simpl. split.
  - eexists. split; [reflexivity|]. repeat split.
  - match goal with |- context [comment_reply ?en ?t ?c ?b] =>
      destruct (comment_reply en t c b) as [reply_id|e'] end; simpl.
    all: eexists; split; [reflexivity|]; unfold issued; simpl.
    all: rewrite map_app; reflexivity.
Qed.

Lemma failed_draft_of_a_reply_witness :
  (exists w',
      reply_below_cap env_llm_down (agent OpenAIVariant env_llm_down) two_lines
        sample_comment (initial_world t0) = (Raise (ExternalError "quota exceeded"), w') /\
      issued w' = issued (initial_world t0) /\
      generated_replies w' = generated_replies (initial_world t0) /\
      stdout w' = stdout (initial_world t0)) /\
  (exists w',
      reply_below_cap env_llm_down (agent GeminiVariant env_llm_down) two_lines
        sample_comment (initial_world t0) = (Ok tt, w') /\
      issued w' = issued (initial_world t0) ++ [CallReply (comment_id sample_comment) ""]).
Proof.
  apply (failed_draft_of_a_reply env_llm_down (ExternalError "quota exceeded")).
  - vm_compute. lia.
  - intros t prompt. reflexivity.
Defined.

Lemma process_comment_outcome env self post_content score comment w :
  process_comment env self post_content score comment w =
    if bool_decide (comment_id comment ∈ generated_replies w) then (Ok tt, w)
    else match should_reply (comment_score comment) score with
         | Ok false => (Ok tt, w)
         | Ok true =>
             (Raise (TypeError "DataCollectionAgent.add_reply() missing 1 required positional argument: 'reply_data'"), w)
         | Raise e => (Raise e, w)
         end.
Proof.
  unfold process_comment. unfold_monad. simpl.
  destruct (decide (comment_id comment ∈ generated_replies w)) as [Hin|Hout].
  - rewrite (bool_decide_eq_true_2 _ Hin), bool_decide_eq_false_2 by (intros H; exact (H Hin)).
    reflexivity.
  - rewrite (bool_decide_eq_false_2 _ Hout), bool_decide_eq_true_2 by exact Hout.
    destruct (should_reply (comment_score comment) score) as [[|]|e]; reflexivity.
Qed.

(** X14. The loop over the comments completes exactly when every comment
    is passed over, its id being in [generated_replies] or its score not
    worth a reply.  The first other comment ends the loop with an
    exception, [TypeError] from [add_reply] when it is worth a reply; the
    comments after it are not looked at, and in no case is a comment
    recorded or answered: the state does not change. *)
Theorem comment_loop_outcome env self post_content score comments w :
  (fst (for_each comments (process_comment env self post_content score) w) = Ok tt <->
   Forall (passed_over w score) comments) /\
  snd (for_each comments (process_comment env self post_content score) w) = w /\
  (forall before c after,
      comments = before ++ c :: after ->
      Forall (passed_over w score) before ->
      comment_id c ∉ generated_replies w ->
      should_reply (comment_score c) score = Ok true ->
      for_each comments (process_comment env self post_content score) w =
        (Raise (TypeError "DataCollectionAgent.add_reply() missing 1 required positional argument: 'reply_data'"), w)).
Proof.
  assert (Hskip : forall c, passed_over w score c ->
            process_comment env self post_content score c w = (Ok tt, w)).
  { intros c [Hin|Hno]; rewrite process_comment_outcome.
    - rewrite bool_decide_eq_true_2 by exact Hin. reflexivity.
    - destruct (bool_decide _); [reflexivity|]. rewrite Hno. reflexivity. }
  split; [|split].
  - induction comments as [|c rest IH]; simpl.
    + split; [constructor|reflexivity].
    + unfold mbind, M_bind, bind. rewrite process_comment_outcome.
      destruct (decide (comment_id c ∈ generated_replies w)) as [Hin|Hout].
      * rewrite bool_decide_eq_true_2 by exact Hin. rewrite IH. split.
        -- intros H. constructor; [left; exact Hin|exact H].
        -- intros H. inversion H; assumption.
      * rewrite bool_decide_eq_false_2 by exact Hout.
        destruct (should_reply (comment_score c) score) as [[|]|e] eqn:Hworthy; simpl.
        -- split; [discriminate|]. intros H. inversion H as [|? ? [Hin|Hno] _]; subst.
           ++ contradiction.
           ++ congruence.
        -- rewrite IH. split.
           ++ intros H. constructor; [right; exact Hworthy|exact H].
           ++ intros H. inversion H; assumption.
        -- split; [discriminate|]. intros H. inversion H as [|? ? [Hin|Hno] _]; subst.
           ++ contradiction.
           ++ congruence.
  - apply for_each_process_world.
  - intros before c after -> Hbefore Hout Hworthy.
    induction Hbefore as [|b before Hb _ IH]; simpl; unfold mbind, M_bind, bind.
    + rewrite process_comment_outcome, bool_decide_eq_false_2 by exact Hout.
      rewrite Hworthy. reflexivity.
    + rewrite (Hskip b Hb). exact IH.
Qed.

Lemma comment_loop_outcome_witness :
  for_each ([] ++ sample_comment :: []) (process_comment env_ok (agent OpenAIVariant env_ok) two_lines 100)
    (initial_world t0) =
  (Raise (TypeError "DataCollectionAgent.add_reply() missing 1 required positional argument: 'reply_data'"),
   initial_world t0).
Proof.
  apply (proj2 (proj2 (comment_loop_outcome env_ok (agent OpenAIVariant env_ok)
                         two_lines 100 ([] ++ sample_comment :: []) (initial_world t0)))
           [] sample_comment []).
  - reflexivity.
  - constructor.
  - simpl. apply not_elem_of_empty.
  - vm_compute. reflexivity.
Defined.

(** ** The monitoring loop *)

Lemma spaced_cons delay t c rest :
  Forall (fun x => t + delay <= fst x) rest ->
  spaced delay rest = true ->
  spaced delay ((t, c) :: rest) = true.
Proof.
  intros Hall Hrest. destruct rest as [|[t2 c2] rest']; [reflexivity|].
  simpl spaced at 1. inversion Hall as [|? ? Hhead _]; subst. simpl in Hhead.
  apply andb_true_intro. split; [apply Z.leb_le; exact Hhead|exact Hrest].
Qed.

Lemma refreshes_expansions post_id rest trace :
  Forall (fun c : Z * PlatformCall => snd c = CallReplaceMore post_id) rest ->
  refreshes (rest ++ trace) = refreshes trace.
Proof.
  induction 1 as [|[t c] rest Hc _ IH]; [reflexivity|].
  simpl in *. subst c. simpl. exact IH.
Qed.

Lemma refreshes_Forall (P : Z * PlatformCall -> Prop) trace :
  Forall P trace -> Forall P (refreshes trace).
Proof.
  induction 1 as [|c rest Hc _ IH]; [constructor|].
  unfold refreshes. simpl. destruct (is_refresh (snd c)); [constructor|]; assumption.
Qed.

Lemma monitor_loop_polls env self post_id post_content start_time :
  forall passes w,
    start_time <= now w ->
    Config.monitoring_duration - Z.of_nat passes * Config.check_interval
      <= now w - start_time ->
    exists w' polls,
      monitor_loop env self passes post_id post_content start_time w = (Ok tt, w') /\
      calls w' = calls w ++ polls /\
      Forall (fun c => now w <= fst c /\
                       (snd c = CallRefresh post_id \/ snd c = CallReplaceMore post_id))
        polls /\
      spaced Config.check_interval (refreshes polls) = true /\
      (length (refreshes polls) <= passes)%nat /\
      (length polls <= 2 * length (refreshes polls))%nat /\
      (now w - start_time < Config.monitoring_duration ->
       (1 <= length (refreshes polls))%nat) /\
      Config.monitoring_duration <= now w' - start_time /\
      data w' = data w /\ files w' = files w /\
      generated_replies w' = generated_replies w.
Proof.
  induction passes as [|passes IH]; intros w Hstart Hleft.
  - exists w, []. simpl. unfold_monad.
    destruct (Z.ltb_spec (now w - start_time) Config.monitoring_duration) as [Hlt|Hge];
      [lia|].
    rewrite app_nil_r. simpl. repeat split; try lia; constructor.
  - rewrite monitor_loop_step.
    destruct (Z.ltb_spec (now w - start_time) Config.monitoring_duration) as [Hlt|Hge].
    + destruct (guarded_pass_spec env self post_id post_content w)
        as (w1 & -> & (Hd & Hf & Hg & _) & Hsleep & rest & Hcalls & Hrest & Hone).
      unfold Config.check_interval in Hsleep.
      destruct (IH w1) as (w' & polls & -> & Hcalls' & Hall & Hspaced & Hlen & Htwice & _
                           & Hend & Hd' & Hf' & Hg');
        [unfold Config.check_interval in *; lia
        |unfold Config.check_interval in *; lia|].
      assert (Hrefreshes :
                refreshes ((now w, CallRefresh post_id) :: rest ++ polls)
                = (now w, CallRefresh post_id) :: refreshes polls).
      { change (refreshes ((now w, CallRefresh post_id) :: rest ++ polls))
          with ((now w, CallRefresh post_id) :: refreshes (rest ++ polls)).
        rewrite (refreshes_expansions post_id).
        - reflexivity.
        - eapply Forall_impl; [exact Hrest|]. intros c [_ Hc]. exact Hc. }
      exists w', ((now w, CallRefresh post_id) :: rest ++ polls).
      split; [reflexivity|].
      split; [rewrite Hcalls', Hcalls, <- app_assoc; reflexivity|].
      rewrite Hrefreshes.
      split; [|split; [|split; [|split; [|split; [|split; [|split; [|split]]]]]]].
      * constructor; [split; [simpl; lia|left; reflexivity]|].
        apply Forall_app. split.
        -- eapply Forall_impl; [exact Hrest|]. intros c [Hc1 Hc2].
           split; [exact Hc1|right; exact Hc2].
        -- eapply Forall_impl; [exact Hall|]. intros c [Hc1 Hc2].
           split; [lia|exact Hc2].
      * apply spaced_cons; [|exact Hspaced].
        apply refreshes_Forall.
        eapply Forall_impl; [exact Hall|]. intros c [Hc1 _].
        unfold Config.check_interval. lia.
      * simpl. lia.
      * simpl. rewrite length_app. simpl in Htwice. lia.
      * intros _. simpl. lia.
      * exact Hend.
      * congruence.
      * congruence.
      * congruence.
    + exists w, []. rewrite app_nil_r. simpl. repeat split; try lia; constructor.
Qed.

(** X15. The monitoring loop never raises and never ends early.  Every
    platform call it issues is a refresh of the submitted post (line 294) or
    the expansion of its comments (line 306), none a submission or a reply.
    It refreshes the post at least once and at most six times, the refreshes
    are at least [check_interval] apart, the comments are expanded at most
    once per refresh, and the loop returns only when [monitoring_duration]
    has passed since it started.  It changes no record and no file and leaves
    [generated_replies] empty. *)
Theorem monitor_polls_for_the_whole_duration env self post_id post_content w :
  exists w' polls,
    monitor env self post_id post_content w = (Ok tt, w') /\
    calls w' = calls w ++ polls /\
    Forall (fun c => now w <= fst c /\
                     (snd c = CallRefresh post_id \/ snd c = CallReplaceMore post_id))
      polls /\
    spaced Config.check_interval (refreshes polls) = true /\
    (1 <= length (refreshes polls) <= 6)%nat /\
    (length polls <= 2 * length (refreshes polls))%nat /\
    now w + Config.monitoring_duration <= now w' /\
    data w' = data w /\ files w' = files w /\
    generated_replies w' = ∅.
Proof.
  unfold monitor. unfold_monad.
  destruct (monitor_loop_polls env self post_id post_content (now w) max_passes
              (set_generated_replies ∅ w))
    as (w' & polls & Hrun & Hcalls & Hall & Hspaced & Hlen & Htwice & Hone & Hend
        & Hd & Hf & Hg).
  - simpl. lia.
  - simpl. unfold max_passes, Config.monitoring_duration, Config.check_interval. lia.
  - simpl in *. rewrite Hrun. exists w', polls.
    unfold max_passes, Config.monitoring_duration in *.
    repeat split; try assumption; lia.
Qed.

(** ** [main] *)

(** X16. Whatever the platform and the LLM answer, [main] never reports
    success: it ends with an exception of [run_research], or the last line
    it prints is "Research failed to complete"; it writes no file. *)
Theorem main_never_reports_success env v w :
  exists r w',
    main env (agent v env) w = (r, w') /\
    ((r = Ok tt /\ last (stdout w') = Some "Research failed to complete") \/
     exists e, r = Raise e) /\
    files w' = files w.
Proof.
  unfold main, new_agent. unfold mbind, M_bind, bind, modify.
  destruct (run_research_summary env v
              "What features do users want in next-generation smartphones?"
              "smartphones" None (set_last_api_call 0 (set_data ∅ w)))
    as (r & w1 & -> & [->|[e ->]] & Hfiles & _).
  - eexists _, _. split; [reflexivity|]. split.
    + left. split; [reflexivity|]. simpl. apply last_snoc.
    + simpl. exact Hfiles.
  - eexists _, _. split; [reflexivity|]. split.
    + right. eexists. reflexivity.
    + exact Hfiles.
Qed.

(** ** The threshold of [should_reply] *)

(** X17. For post scores of magnitude below 2^51 the comments worth a
    reply are those whose score reaches [max (min_upvotes + 1,
    post_score / 20 + 1)], with the division rounded down: under a post of
    fewer than 120 points every comment above [min_upvotes] qualifies, and a
    comment that qualifies still does when its score rises or the score of
    the post falls. *)
Theorem should_reply_threshold score post_score :
  Z.abs post_score < 2 ^ 51 ->
  (should_reply score post_score = Ok true <-> least_worthy_score post_score <= score) /\
  (post_score < 120 ->
   (should_reply score post_score = Ok true <-> Config.min_upvotes < score)) /\
  (forall score' post_score',
      Z.abs post_score' < 2 ^ 51 ->
      score <= score' -> post_score' <= post_score ->
      should_reply score post_score = Ok true ->
      should_reply score' post_score' = Ok true).
Proof.
  intros Hrange.
  assert (Hiff : forall s p, Z.abs p < 2 ^ 51 ->
            (should_reply s p = Ok true <-> 5 < s /\ p < 20 * s)).
  { intros s p Hp. rewrite (should_reply_exact s p Hp). unfold Config.min_upvotes. split.
    - intros [= H]. apply bool_decide_eq_true in H. exact H.
    - intros H. rewrite bool_decide_eq_true_2 by exact H. reflexivity. }
  assert (Hdiv : post_score < 20 * score <-> post_score / 20 + 1 <= score).
  { pose proof (Z.div_mod post_score 20 ltac:(lia)) as Hdm.
    pose proof (Z.mod_pos_bound post_score 20 ltac:(lia)) as Hmod.
    split; intros H; nia. }
  unfold least_worthy_score, Config.min_upvotes. split; [|split].
  - rewrite (Hiff _ _ Hrange), Hdiv. split; intros H; lia.
  - intros Hsmall. rewrite (Hiff _ _ Hrange). split; intros H; lia.
  - intros score' post_score' Hrange' Hs Hp.
    rewrite (Hiff _ _ Hrange), (Hiff _ _ Hrange'). lia.
Qed.

Lemma should_reply_threshold_witness :
  should_reply 6 119 = Ok true <-> least_worthy_score 119 <= 6.
Proof.
  apply (should_reply_threshold 6 119). vm_compute. reflexivity.
Defined.

(** ** A rejected submission *)

(** X18. When the platform rejects the submission, [run_research] prints
    "Error posting to Reddit: " with the message of the platform and returns
    [None] without retrying: the submission is the last call to the
    platform, the post is never polled, and no file is written. *)
Theorem rejected_submission_aborts env v e research_prompt subreddit_name research_id w :
  (forall t, subreddit_title env t subreddit_name = Ok tt) ->
  (forall t, is_ok (subreddit_hot env t subreddit_name) = true) ->
  (forall t prompt, is_ok (llm env t prompt) = true) ->
  (forall t name title body, subreddit_submit env t name title body = Raise e) ->
  exists w' title body,
    run_research env (agent v env) research_prompt subreddit_name research_id w =
      (Ok None, w') /\
    issued w' = issued w ++
      [CallSubreddit subreddit_name; CallHot subreddit_name; CallSubmit title body] /\
    stdout w' = stdout w ++ ["Error posting to Reddit: " +:+ exn_str e] /\
    files w' = files w.
Proof.
  intros Htitle Hhot Hllm Hsubmit.
  unfold run_research. unfold mbind, M_bind, bind.
  destruct research_id as [given|]; unfold ret, get_time.
  all: rewrite get_subreddit_spec; cbv zeta; rewrite Htitle.
  all: destruct v; simpl; unfold OpenAI.analyze_subreddit, OpenAI.generate_post,
         Gemini.analyze_subreddit, Gemini.generate_post, Gemini.generate_text,
         initialize_research, make_post; unfold_monad; simpl.
  all: match goal with |- context [subreddit_hot ?en ?t ?n] =>
         pose proof (Hhot t) as Hh; destruct (subreddit_hot en t n) as [posts|?] end;
         [|discriminate]; simpl.
  all: match goal with |- context [llm ?en ?t ?p] =>
         pose proof (Hllm t p) as Hs; destruct (llm en t p) as [style_guide|?] end;
         [|discriminate]; simpl.
  all: match goal with |- context [llm ?en ?t ?p] =>
         pose proof (Hllm t p) as Hc; destruct (llm en t p) as [post_content|?] end;
         [|discriminate]; simpl.
  all: rewrite str_split_head; simpl; rewrite Hsubmit; simpl.
  all: eexists _, _, _; split; [reflexivity|]; simpl; unfold issued; simpl.
  all: rewrite <- !app_assoc, map_app; simpl.
  all: repeat split.
Qed.

Lemma rejected_submission_aborts_witness :
  exists w' title body,
    run_research env_submit_down (agent GeminiVariant env_submit_down) "topic"
      "smartphones" None (initial_world t0) = (Ok None, w') /\
    issued w' = issued (initial_world t0) ++
      [CallSubreddit "smartphones"; CallHot "smartphones"; CallSubmit title body] /\
    stdout w' = stdout (initial_world t0) ++
      ["Error posting to Reddit: " +:+ exn_str (ExternalError "SUBREDDIT_NOTALLOWED")] /\
    files w' = files (initial_world t0).
Proof.
  apply (rejected_submission_aborts env_submit_down GeminiVariant
           (ExternalError "SUBREDDIT_NOTALLOWED")); intros; reflexivity.
Defined.
